(** * Authentication and resilient API access layer of the Jira agent

    A shallow embedding of [adk_jsm_agent/agent/auth.py] and of the two
    paginated list operations of [adk_jsm_agent/agent/jira_issues.py].

    Python values are modelled by [json]; a coroutine is a function of the
    [World] (the session behind [tool_context] and the log of HTTP requests
    sent so far) that returns a value or a raised exception together with
    the world it leaves behind.  The libraries the module calls (httpx,
    pydantic, the ADK refresher and consent capability, [os.getenv]) are the
    fields of the class [Platform]. *)

From Stdlib Require Import ZArith Lia Ascii String.
From stdpp Require Import gmap strings list fin_maps.

Set Warnings "-register-all".
Local Open Scope string_scope.
Local Open Scope Z_scope.

(** ** Python values *)

Inductive json : Type :=
| JNull
| JBool (b : bool)
| JNum (n : Z)
| JStr (s : string)
| JArr (items : list json)
| JObj (fields : list (string * json)).

(** Exceptions that can cross a function boundary in the modelled code. *)
Inductive exn : Type :=
| ValueError (msg : string)
| ValidationError
| TypeError
| AttributeError
| KeyError (key : string)
| JSONDecodeError
| HTTPStatusError (msg : string)
| TransportError (msg : string)
| OtherError (msg : string)
| NotModelled.

Inductive py (A : Type) : Type :=
| Ret (a : A)
| Raise (e : exn).
Arguments Ret {A} a.
Arguments Raise {A} e.

(** [bool(v)]. *)
Definition truthy (v : json) : bool :=
  match v with
  | JNull => false
  | JBool b => b
  | JNum n => negb (n =? 0)
  | JStr s => negb (String.eqb s EmptyString)
  | JArr items => match items with [] => false | _ => true end
  | JObj fields => match fields with [] => false | _ => true end
  end.

(** [bool(s)] for [s : str | None], the type of [os.getenv]'s result. *)
Definition str_truthy (o : option string) : bool :=
  match o with
  | Some s => negb (String.eqb s EmptyString)
  | None => false
  end.

(** Lookup in a dict held as an association list (keys are unique). *)
Fixpoint assoc_get (k : string) (fields : list (string * json)) : option json :=
  match fields with
  | [] => None
  | (k', v) :: rest => if String.eqb k k' then Some v else assoc_get k rest
  end.

(** [d[k] = v]: an existing key keeps its position. *)
Fixpoint assoc_set (k : string) (v : json) (fields : list (string * json))
  : list (string * json) :=
  match fields with
  | [] => [(k, v)]
  | (k', v') :: rest =>
      if String.eqb k k' then (k, v) :: rest else (k', v') :: assoc_set k v rest
  end.

(** The one-character strings of [s], as iterating a [str] yields them. *)
Fixpoint chars (s : string) : list json :=
  match s with
  | EmptyString => []
  | String c rest => JStr (String c EmptyString) :: chars rest
  end.

(** [list(v)]: what [for k in v] and [list.extend(v)] run through. *)
Definition py_iter (v : json) : py (list json) :=
  match v with
  | JArr items => Ret items
  | JStr s => Ret (chars s)
  | JObj fields => Ret (map (fun kv => JStr (fst kv)) fields)
  | _ => Raise TypeError
  end.

(** [len(v)]. *)
Definition py_len (v : json) : py Z :=
  match v with
  | JArr items => Ret (Z.of_nat (length items))
  | JStr s => Ret (Z.of_nat (String.length s))
  | JObj fields => Ret (Z.of_nat (length fields))
  | _ => Raise TypeError
  end.

(** [d.get(k, default)]: only a dict has the method. *)
Definition py_get (d : json) (k : string) (default : json) : py json :=
  match d with
  | JObj fields => Ret (match assoc_get k fields with Some v => v | None => default end)
  | _ => Raise AttributeError
  end.

(** [d[k]] for a string [k]. *)
Definition py_getitem (d : json) (k : string) : py json :=
  match d with
  | JObj fields =>
      match assoc_get k fields with Some v => Ret v | None => Raise (KeyError k) end
  | _ => Raise TypeError
  end.

(** Whether [needle] occurs in [s] ([needle in s] on two [str]). *)
Fixpoint prefix_of (p s : string) : bool :=
  match p, s with
  | EmptyString, _ => true
  | String a p', String b s' => if Ascii.eqb a b then prefix_of p' s' else false
  | String _ _, EmptyString => false
  end.

Fixpoint contains (needle s : string) : bool :=
  if prefix_of needle s then true
  else match s with
       | EmptyString => false
       | String _ s' => contains needle s'
       end.

(** [k in d] for a string [k]. *)
Definition py_in (k : string) (d : json) : py bool :=
  match d with
  | JObj fields => Ret (match assoc_get k fields with Some _ => true | None => false end)
  | JArr items =>
      Ret (existsb (fun v => match v with JStr s => String.eqb s k | _ => false end) items)
  | JStr s => Ret (contains k s)
  | _ => Raise TypeError
  end.

(** [a >= v] for an [int] [a]; [bool] is a subclass of [int]. *)
Definition py_ge (a : Z) (v : json) : py bool :=
  match v with
  | JNum n => Ret (a >=? n)
  | JBool b => Ret (a >=? Z.b2z b)
  | _ => Raise TypeError
  end.

(** ** Results returned by tool functions *)

Inductive ResultsDict : Type :=
| ResultsPending
| ResultsError (message : string)
| ResultsSuccess (data : json).

(** The dictionary each constructor builds in its [__init__]. *)
Definition to_dict (r : ResultsDict) : list (string * json) :=
  match r with
  | ResultsPending =>
      [("pending", JBool true); ("message", JStr "Awaiting user authentication.")]
  | ResultsError message => [("status", JStr "error"); ("message", JStr message)]
  | ResultsSuccess data => [("status", JStr "success"); ("data", data)]
  end.

Definition is_success (d : ResultsDict) : bool :=
  match assoc_get "status" (to_dict d) with
  | Some (JStr s) => String.eqb s "success"
  | _ => false
  end.

(** ** Credentials, requests and responses *)

(** The authorization-code flow of the [OAuth2] scheme. *)
Record OAuth2 : Type := {
  authorizationUrl : string;
  tokenUrl : string;
  refreshUrl : string;
  scopes : list (string * json)
}.

Record OAuth2Auth : Type := {
  client_id : option string;
  client_secret : option string;
  audience : option string;
  access_token : option string;
  refresh_token : option string
}.

(** [auth_type] is always [AuthCredentialTypes.OAUTH2] here. *)
Record AuthCredential : Type := { oauth2 : option OAuth2Auth }.

Record AuthConfig : Type := {
  auth_scheme : OAuth2;
  raw_auth_credential : AuthCredential
}.

Record BasicAuth : Type := { username : string; password : string }.

Record Request : Type := {
  req_method : string;
  req_url : string;
  req_headers : list (string * json);
  req_params : option json;
  req_json : option json;
  req_auth : option BasicAuth;
  req_timeout : Z
}.

(** [response.text] is empty, is a JSON document, or is not JSON at all. *)
Inductive Body : Type :=
| BodyEmpty
| BodyJson (j : json)
| BodyMalformed.

Record Response : Type := { status_code : Z; body : Body }.

(** The session behind [tool_context]: its key-value state and the consent
    requests issued through [request_credential]. *)
Record ToolContext : Type := {
  state : gmap string json;
  requested : list AuthConfig
}.

(** [tool_context] is [None] when the caller passes no context. [sent] logs
    every HTTP request attempted, oldest first. *)
Record World : Type := {
  tool_context : option ToolContext;
  sent : list Request
}.

(** The world after [req] was attempted. *)
Definition logged (w : World) (req : Request) : World :=
  {| tool_context := tool_context w; sent := (sent w ++ [req])%list |}.

(** ** What the module takes from its libraries and its process *)

Class Platform : Type := {
  (** [os.getenv(name)] *)
  os_getenv : string -> option string;
  (** [client.request(...)] after the requests sent before: a response, or
      the exception httpx raises (connection failure, timeout). *)
  http_request : list Request -> Request -> py Response;
  (** [str(e)] of the [HTTPStatusError] that [raise_for_status] raises. *)
  str_HTTPStatusError : Request -> Response -> string;
  (** [AuthCredential.model_validate_json] on a string; [None] stands for a
      [ValidationError]. *)
  validate_json : string -> option AuthCredential;
  model_dump_json : AuthCredential -> string;
  (** [str(creds)] *)
  str_AuthCredential : AuthCredential -> string;
  (** [str(v)] of a value that is not a string. *)
  str_other : json -> string;
  (** [OAuth2CredentialRefresher] *)
  is_refresh_needed : AuthCredential -> OAuth2 -> py bool;
  refresh : AuthCredential -> OAuth2 -> py AuthCredential;
  (** [tool_context.get_auth_response(config)]: the credential of a consent
      the user has completed, if any. *)
  get_auth_response : ToolContext -> AuthConfig -> option AuthCredential;
  (** [bool(tool_context.state)]: an object without [__bool__] and
      [__len__] is always true, a mapping is true when it holds a key. *)
  state_bool : gmap string json -> bool;
  state_bool_nonempty : forall st : gmap string json, st <> ∅ -> state_bool st = true
}.

(** ** Coroutines as world transformers *)

Definition M (A : Type) : Type := World -> py A * World.

Definition ret {A} (a : A) : M A := fun w => (Ret a, w).
Definition raise {A} (e : exn) : M A := fun w => (Raise e, w).
Definition bind {A B} (m : M A) (f : A -> M B) : M B :=
  fun w =>
    match m w with
    | (Ret a, w') => f a w'
    | (Raise e, w') => (Raise e, w')
    end.
Definition lift {A} (r : py A) : M A := fun w => (r, w).

(** [try: m except ...: handler e]; [handler] re-raises what it does not
    catch. *)
Definition try_except {A} (m : M A) (handler : exn -> M A) : M A :=
  fun w =>
    match m w with
    | (Ret a, w') => (Ret a, w')
    | (Raise e, w') => handler e w'
    end.

Declare Scope py_scope.
Delimit Scope py_scope with py.
Notation "x <- m ;; k" := (bind m (fun x => k))
  (at level 100, m at next level, right associativity) : py_scope.
Notation "m ;;; k" := (bind m (fun _ => k))
  (at level 100, right associativity) : py_scope.
Local Open Scope py_scope.

(** [tool_context and tool_context.state] as a condition. *)
Definition has_context `{Platform} (w : World) : bool :=
  match tool_context w with
  | Some tc => state_bool (state tc)
  | None => false
  end.

(** [tool_context.state.get(key)] *)
Definition state_get (key : string) : M json :=
  fun w =>
    match tool_context w with
    | Some tc => (Ret (default JNull (state tc !! key)), w)
    | None => (Raise AttributeError, w)
    end.

(** [tool_context.state[key]] *)
Definition state_getitem (key : string) : M json :=
  fun w =>
    match tool_context w with
    | Some tc =>
        match state tc !! key with
        | Some v => (Ret v, w)
        | None => (Raise (KeyError key), w)
        end
    | None => (Raise AttributeError, w)
    end.

(** [tool_context.state[key] = v] *)
Definition state_set (key : string) (v : json) : M unit :=
  fun w =>
    match tool_context w with
    | Some tc =>
        (Ret tt,
         {| tool_context :=
              Some {| state := <[key := v]> (state tc); requested := requested tc |};
            sent := sent w |})
    | None => (Raise AttributeError, w)
    end.

(** [tool_context.request_credential(config)] *)
Definition request_credential (config : AuthConfig) : M unit :=
  fun w =>
    match tool_context w with
    | Some tc =>
        (Ret tt,
         {| tool_context :=
              Some {| state := state tc; requested := (requested tc ++ [config])%list |};
            sent := sent w |})
    | None => (Raise AttributeError, w)
    end.

(** ** auth.py *)

Definition TOKEN_CACHE : string := "jra_agent_token".
Definition JIRA_INSTANCE_CACHE : string := "jira_instance_cache".

(** The message of line 316: a plain string literal, not an f-string. *)
Definition unknown_instance_message : string :=
  "Jira instance {jira_instance} not in list {', '.join(r['data'].keys())}".

(** Line 126. *)
Definition default_headers : list (string * json) :=
  [("Accept", JStr "application/json"); ("Content-Type", JStr "application/json")].

(** [s.split(" ")], with [cur] the piece being read. *)
Fixpoint split_space (s cur : string) : list string :=
  match s with
  | EmptyString => [cur]
  | String c rest =>
      if Ascii.eqb c " "%char then cur :: split_space rest EmptyString
      else split_space rest (cur +:+ String c EmptyString)
  end.

(** What [_api_call] has decided before it sends anything: go on with these
    credentials, or return at once. *)
Inductive resolved : Type :=
| Proceed (auth : option BasicAuth) (headers : list (string * json))
| Return (r : ResultsDict).

(** The three branches of the [if token: ... elif ...: ... else: ...] of
    [_api_call]. *)
Inductive Strategy : Type :=
| Delegated (token : json)
| StaticPAT (auth : BasicAuth)
| ManagedOAuth.

Section Auth.
Context `{Platform}.

(** [str(v)], as an f-string formats [v]. *)
Definition py_str (v : json) : string :=
  match v with
  | JStr s => s
  | _ => str_other v
  end.

Definition _get_auth_sheme_and_credential : py (OAuth2 * AuthCredential) :=
  let client_id := os_getenv "ADK_OAUTH_CLIENT_ID" in
  let client_secret := os_getenv "ADK_OAUTH_CLIENT_SECRET" in
  if negb (str_truthy client_secret) || negb (str_truthy client_id) then
    Raise (ValueError
      "must define environment variables ADK_OAUTH_CLIENT_ID and ADK_OAUTH_CLIENT_SECRET")
  else
    let auth_uri := os_getenv "ADK_OAUTH_AUTH_URI" in
    let token_uri := os_getenv "ADK_OAUTH_TOKEN_URI" in
    let scopes := os_getenv "ADK_OAUTH_SCOPES" in
    if negb (str_truthy auth_uri) || negb (str_truthy token_uri)
       || negb (str_truthy scopes) then
      Raise (ValueError
        "must define environment variables ADK_OAUTH_AUTH_URI, ADK_OAUTH_TOKEN_URI, and ADK_OAUTH_SCOPES")
    else
      let auth_scheme :=
        {| authorizationUrl := default EmptyString auth_uri;
           tokenUrl := default EmptyString token_uri;
           refreshUrl := default EmptyString token_uri;
           scopes :=
             foldl (fun d scope => assoc_set scope (JStr ("Access to " +:+ scope)) d)
                   [] (split_space (default EmptyString scopes) EmptyString) |} in
      let auth_credential :=
        {| oauth2 := Some {| client_id := client_id;
                             client_secret := client_secret;
                             audience := os_getenv "ADK_OAUTH_AUDIENCE";
                             access_token := None;
                             refresh_token := None |} |} in
      Ret (auth_scheme, auth_credential).

(** [AuthCredential.model_validate_json(v)]: anything but a string that
    parses is a [ValidationError]. *)
Definition model_validate_json (v : json) : M AuthCredential :=
  match v with
  | JStr s =>
      match validate_json s with
      | Some creds => ret creds
      | None => raise ValidationError
      end
  | _ => raise ValidationError
  end.

Definition tool_context_get_auth_response (config : AuthConfig)
  : M (option AuthCredential) :=
  fun w =>
    match tool_context w with
    | Some tc => (Ret (get_auth_response tc config), w)
    | None => (Raise AttributeError, w)
    end.

Definition _refresh_credentials : M ResultsDict :=
  sc <- lift _get_auth_sheme_and_credential ;;
  let config := {| auth_scheme := fst sc; raw_auth_credential := snd sc |} in
  (* Extract cached credentials *)
  auth_cred <- state_get TOKEN_CACHE ;;
  creds <- (if truthy auth_cred
            then c <- model_validate_json auth_cred ;; ret (Some c)
            else ret None) ;;
  match creds with
  | Some creds =>
      try_except
        (needed <- lift (is_refresh_needed creds (fst sc)) ;;
         if needed then
           fresh <- lift (refresh creds (fst sc)) ;;
           state_set TOKEN_CACHE (JStr (model_dump_json fresh))
         else ret tt)
        (fun _ => state_set TOKEN_CACHE JNull) ;;;
      ret (ResultsSuccess JNull)
  | None =>
      creds <- tool_context_get_auth_response config ;;
      match creds with
      | Some creds =>
          state_set TOKEN_CACHE (JStr (model_dump_json creds)) ;;;
          ret (ResultsSuccess JNull)
      | None =>
          request_credential config ;;;
          ret ResultsPending
      end
  end.

(** Lines 129-133: the token Agentspace left in the session, if any. *)
Definition delegated_token : M json :=
  fun w =>
    let auth_id := os_getenv "AGENTSPACE_AUTH_ID" in
    if str_truthy auth_id && has_context w
    then state_get ("temp:" +:+ default EmptyString auth_id) w
    else (Ret JNull, w).

(** The conditions of lines 136, 141 and 147. *)
Definition select_strategy : M Strategy :=
  token <- delegated_token ;;
  if truthy token then ret (Delegated token)
  else if str_truthy (os_getenv "JIRA_USERNAME")
          && str_truthy (os_getenv "JIRA_API_TOKEN")
  then ret (StaticPAT {| username := default EmptyString (os_getenv "JIRA_USERNAME");
                         password := default EmptyString (os_getenv "JIRA_API_TOKEN") |})
  else ret ManagedOAuth.

Definition bearer (token : string) (headers : list (string * json))
  : list (string * json) :=
  assoc_set "Authorization" (JStr ("Bearer " +:+ token)) headers.

(** Lines 148-162: the OAuth branch. *)
Definition oauth_headers (headers : list (string * json)) : M resolved :=
  fun w =>
    if negb (has_context w) then
      (Ret (Return (ResultsError "no tool_context when running in OAuth mode")), w)
    else
      (r <- _refresh_credentials ;;
       if negb (is_success r) then ret (Return r)
       else
         (* Get the credentials into the header *)
         stored <- state_get TOKEN_CACHE ;;
         creds <- model_validate_json stored ;;
         match oauth2 creds with
         | Some o =>
             if str_truthy (access_token o)
             then ret (Proceed None
                         (bearer (default EmptyString (access_token o)) headers))
             else ret (Return (ResultsError
                    ("no credentials when running in OAuth mode only "
                     +:+ str_AuthCredential creds)))
         | None =>
             ret (Return (ResultsError
                    ("no credentials when running in OAuth mode only "
                     +:+ str_AuthCredential creds)))
         end) w.

(** [client.request(...)]: the attempt is logged whatever comes back. *)
Definition client_request (req : Request) : M Response :=
  fun w =>
    (http_request (sent w) req, logged w req).

Definition is_2xx (resp : Response) : bool :=
  (200 <=? status_code resp) && (status_code resp <=? 299).

Definition raise_for_status (req : Request) (resp : Response) : M unit :=
  if is_2xx resp then ret tt
  else raise (HTTPStatusError (str_HTTPStatusError req resp)).

(** [response.json() if response.text else {}] *)
Definition response_payload (resp : Response) : M json :=
  match body resp with
  | BodyEmpty => ret (JObj [])
  | BodyJson j => ret j
  | BodyMalformed => raise JSONDecodeError
  end.

(** Lines 125-162: what each strategy puts on the request. *)
Definition resolve_auth : M resolved :=
  let headers := default_headers in
  strategy <- select_strategy ;;
  match strategy with
  | Delegated token => ret (Proceed None (bearer (py_str token) headers))
  | StaticPAT auth => ret (Proceed (Some auth) headers)
  | ManagedOAuth => oauth_headers headers
  end.

Definition _api_call (endpoint method path : string)
    (json_data params : option json) : M ResultsDict :=
  r <- resolve_auth ;;
  match r with
  | Return r => ret r
  | Proceed auth headers =>
      let req := {| req_method := method; req_url := endpoint +:+ path;
                    req_headers := headers; req_params := params;
                    req_json := json_data; req_auth := auth; req_timeout := 30 |} in
      try_except
        (response <- client_request req ;;
         raise_for_status req response ;;;
         payload <- response_payload response ;;
         ret (ResultsSuccess payload))
        (fun e =>
           match e with
           | HTTPStatusError msg =>
               ret (ResultsError
                      ("An error occurred while calling Jira API endpoint "
                       +:+ endpoint +:+ ": " +:+ msg))
           | _ => raise e
           end)
  end.

(** [r[key]] on a results dictionary. *)
Definition results_getitem (r : ResultsDict) (key : string) : py json :=
  match assoc_get key (to_dict r) with
  | Some v => Ret v
  | None => Raise (KeyError key)
  end.

(** [{k["url"]: {"id": k["id"], "name": k["name"]} for k in items}].
    Response documents have string keys only, so a [url] that is a number,
    a boolean or null, which Python would take as a key, has no place in
    [JObj] and ends the model with [NotModelled]. *)
Fixpoint instance_cache (items : list json) (acc : list (string * json))
  : py (list (string * json)) :=
  match items with
  | [] => Ret acc
  | k :: rest =>
      match py_getitem k "url", py_getitem k "id", py_getitem k "name" with
      | Raise e, _, _ => Raise e
      | _, Raise e, _ => Raise e
      | _, _, Raise e => Raise e
      | Ret url, Ret id, Ret name =>
          match url with
          | JStr u =>
              instance_cache rest (assoc_set u (JObj [("id", id); ("name", name)]) acc)
          | JArr _ | JObj _ => Raise TypeError
          | _ => Raise NotModelled
          end
      end
  end.

Definition auth_list_jira_instances : M ResultsDict :=
  let jira_instance := os_getenv "JIRA_INSTANCE" in
  if str_truthy jira_instance then
    ret (ResultsSuccess
           (JObj [(default EmptyString jira_instance,
                   JObj [("id", JNull); ("name", JStr EmptyString)])]))
  else
    fun w =>
      if negb (has_context w) then
        (Ret (ResultsError "no tool_context when running in OAuth mode"), w)
      else
        (cached <- state_get JIRA_INSTANCE_CACHE ;;
         early <- (if negb (truthy cached) then
                     r <- _api_call "https://api.atlassian.com" "GET"
                            "/oauth/token/accessible-resources" None None ;;
                     if negb (is_success r) then ret (Some r)
                     else
                       (* Capture instance cache *)
                       data <- lift (results_getitem r "data") ;;
                       items <- lift (py_iter data) ;;
                       cache <- lift (instance_cache items []) ;;
                       state_set JIRA_INSTANCE_CACHE (JObj cache) ;;;
                       ret None
                   else ret None) ;;
         match early with
         | Some r => ret r
         | None =>
             (* Return the list of instances *)
             v <- state_getitem JIRA_INSTANCE_CACHE ;;
             ret (ResultsSuccess v)
         end) w.

Definition jira_api_call (jira_instance method path : string)
    (json_data params : option json) : M ResultsDict :=
  (* Get the available resources *)
  r <- auth_list_jira_instances ;;
  if negb (is_success r) then ret r
  else
    data <- lift (results_getitem r "data") ;;
    known <- lift (py_in jira_instance data) ;;
    if negb known then
      ret (ResultsError unknown_instance_message)
    else
      (* Get the ID (may be None, but should exist) *)
      entry <- lift (py_getitem data jira_instance) ;;
      instance_id <- lift (py_get entry "id" JNull) ;;
      _api_call
        (if truthy instance_id
         then "https://api.atlassian.com/ex/jira/" +:+ py_str instance_id
         else jira_instance)
        method path json_data params.

End Auth.

(** ** jira_issues.py: the two paginated list operations *)

(** One pass through the body of a [while True:] loop either leaves the
    function with a result or goes round again with new loop variables. *)
Inductive loop_step (S : Type) : Type :=
| Break (r : ResultsDict)
| Continue (s : S).
Arguments Break {S} r.
Arguments Continue {S} s.

(** [while True: body], cut after [fuel] passes; [None] means the loop was
    still running then. *)
Fixpoint while_true {S : Type} (fuel : nat) (body : S -> M (loop_step S))
    (s : S) (w : World) : option (py ResultsDict * World) :=
  match fuel with
  | O => None
  | Datatypes.S fuel' =>
      match body s w with
      | (Raise e, w') => Some (Raise e, w')
      | (Ret (Break r), w') => Some (Ret r, w')
      | (Ret (Continue s'), w') => while_true fuel' body s' w'
      end
  end.

(** [passes body n s w s' w']: [n] passes through [body] that all go round
    again lead from loop variables [s] in world [w] to [s'] in [w']. *)
Inductive passes {S : Type} (body : S -> M (loop_step S))
  : nat -> S -> World -> S -> World -> Prop :=
| passes_O s w : passes body O s w s w
| passes_S n s w s1 w1 s2 w2 :
    body s w = (Ret (Continue s1), w1) ->
    passes body n s1 w1 s2 w2 ->
    passes body (Datatypes.S n) s w s2 w2.

(** [payload] is a search page with the issues [p] and the total [t]. *)
Definition is_page (payload : json) (p : list json) (t : Z) : Prop :=
  py_get payload "issues" (JArr []) = Ret (JArr p)
  /\ py_get payload "total" (JNum 0) = Ret (JNum t).

Section Issues.
Context `{Platform}.

(** Lines 105-112: the request for the page at [start_at]. *)
Definition search_page (jira_instance jql : string) (start_at : Z) : M ResultsDict :=
  let max_results := 100 in
  let params := JObj [("jql", JStr jql); ("startAt", JNum start_at);
                      ("maxResults", JNum max_results)] in
  jira_api_call jira_instance "GET" "/rest/api/3/search" None (Some params).

(** The loop body of [list_jira_issues], lines 105-123, on the loop
    variables [start_at] and [all_issues]. *)
Definition list_jira_issues_body (jira_instance jql : string)
    (s : Z * list json) : M (loop_step (Z * list json)) :=
  let '(start_at, all_issues) := s in
  data <- search_page jira_instance jql start_at ;;
  if negb (is_success data) then ret (Break data)
  else
    payload <- lift (results_getitem data "data") ;;
    issues <- lift (py_get payload "issues" (JArr [])) ;;
    items <- lift (py_iter issues) ;;
    let all_issues := (all_issues ++ items)%list in
    n <- lift (py_len issues) ;;
    total <- lift (py_get payload "total" (JNum 0)) ;;
    reached <- lift (py_ge (start_at + n) total) ;;
    if reached then ret (Break (ResultsSuccess (JArr all_issues)))
    else ret (Continue (start_at + n, all_issues)).

Definition list_jira_issues (fuel : nat) (jira_instance jql : string)
  : World -> option (py ResultsDict * World) :=
  while_true fuel (list_jira_issues_body jira_instance jql) (0, []).

(** Lines 396-403: the request for the page at [start]. *)
Definition servicedesk_page (jira_instance : string) (start : Z) : M ResultsDict :=
  let limit := 50 in
  let params := JObj [("start", JNum start); ("limit", JNum limit)] in
  jira_api_call jira_instance "GET" "/rest/servicedeskapi/servicedesk"
    None (Some params).

(** The loop body of [list_jsm_service_projects], lines 396-414, on the
    loop variables [start] and [all_projects]. The last-page test reads
    [data], the results dictionary, not [data["data"]]. *)
Definition list_jsm_service_projects_body (jira_instance : string)
    (s : Z * list json) : M (loop_step (Z * list json)) :=
  let '(start, all_projects) := s in
  data <- servicedesk_page jira_instance start ;;
  if negb (is_success data) then ret (Break data)
  else
    payload <- lift (results_getitem data "data") ;;
    projects_data <- lift (py_get payload "values" (JArr [])) ;;
    items <- lift (py_iter projects_data) ;;
    let all_projects := (all_projects ++ items)%list in
    if truthy (default (JBool true) (assoc_get "isLastPage" (to_dict data)))
    then ret (Break (ResultsSuccess (JArr all_projects)))
    else
      n <- lift (py_len projects_data) ;;
      ret (Continue (start + n, all_projects)).

Definition list_jsm_service_projects (fuel : nat) (jira_instance : string)
  : World -> option (py ResultsDict * World) :=
  while_true fuel (list_jsm_service_projects_body jira_instance) (0, []).

(** The loop of [list_jira_issues], started in [w0], comes to ask for a
    page with the loop variables [s] in the world [w]. *)
Definition received (jira_instance jql : string) (w0 : World)
    (s : Z * list json) (w : World) : Prop :=
  exists n, passes (list_jira_issues_body jira_instance jql) n (0, []) w0 s w.

(** Every page the loop started in [w0] asks for comes back as a success
    that holds an issue, or whose total is no greater than the offset plus
    the number of issues it holds. *)
Definition well_paged (jira_instance jql : string) (w0 : World) : Prop :=
  forall s w, received jira_instance jql w0 s w ->
    exists payload p t w',
      search_page jira_instance jql (fst s) w = (Ret (ResultsSuccess payload), w')
      /\ is_page payload p t
      /\ (p <> [] \/ t <= fst s + Z.of_nat (length p)).

(** No page the loop started in [w0] asks for reports a total above
    [bound]. *)
Definition bounded_totals (jira_instance jql : string) (w0 : World)
    (bound : Z) : Prop :=
  forall s w payload p t w', received jira_instance jql w0 s w ->
    search_page jira_instance jql (fst s) w = (Ret (ResultsSuccess payload), w') ->
    is_page payload p t -> t <= bound.

End Issues.

(** ** Test doubles

    Concrete platforms on which the operations are evaluated. *)

Definition mock_cred (token : option string) : AuthCredential :=
  {| oauth2 := Some {| client_id := Some "client"; client_secret := Some "secret";
                       audience := None; access_token := token;
                       refresh_token := Some "refresh-1" |} |}.

(** A platform with environment [env], HTTP behaviour [http], a refresher
    that answers [needed] and [refreshed], and a consent capability that
    has [granted]. A stored credential is the string ["stored"]; the state
    object is always true, as an object without [__bool__] is. *)
Definition mock (env : gmap string string)
    (http : list Request -> Request -> py Response)
    (needed : py bool) (refreshed : py AuthCredential)
    (granted : option AuthCredential) : Platform :=
  {| os_getenv k := env !! k;
     http_request := http;
     str_HTTPStatusError req resp :=
       (if status_code resp <? 500 then "Client error" else "Server error")
       +:+ " for url '" +:+ req_url req +:+ "'";
     validate_json s :=
       if String.eqb s "stored" then Some (mock_cred (Some "access-1")) else None;
     model_dump_json _ := "stored";
     str_AuthCredential _ := "AuthCredential(...)";
     str_other _ := "?";
     is_refresh_needed _ _ := needed;
     refresh _ _ := refreshed;
     get_auth_response _ _ := granted;
     state_bool _ := true;
     state_bool_nonempty _ _ := eq_refl |}.

Definition no_server : list Request -> Request -> py Response :=
  fun _ _ => Raise (TransportError "connection refused").

(** The configuration of the integration tests: a fixed instance and a PAT. *)
Definition pat_env : gmap string string :=
  list_to_map [("JIRA_INSTANCE", "https://a.example");
               ("JIRA_USERNAME", "user"); ("JIRA_API_TOKEN", "pat")].

Definition oauth_env : gmap string string :=
  list_to_map [("ADK_OAUTH_CLIENT_ID", "client"); ("ADK_OAUTH_CLIENT_SECRET", "secret");
               ("ADK_OAUTH_AUTH_URI", "https://auth.example/authorize");
               ("ADK_OAUTH_TOKEN_URI", "https://auth.example/token");
               ("ADK_OAUTH_SCOPES", "offline_access read:jira-work")].

Definition no_context : World := {| tool_context := None; sent := [] |}.

Definition session (st : gmap string json) : World :=
  {| tool_context := Some {| state := st; requested := [] |}; sent := [] |}.

(** The integer query parameter [name] of a request. *)
Definition param (name : string) (req : Request) : option Z :=
  match req_params req with
  | Some (JObj fields) =>
      match assoc_get name fields with
      | Some (JNum n) => Some n
      | _ => None
      end
  | _ => None
  end.

(** The search request [list_jira_issues] sends under [pat_env]. *)
Definition pat_search_request (jql : string) (start_at : Z) : Request :=
  {| req_method := "GET";
     req_url := "https://a.example/rest/api/3/search";
     req_headers := default_headers;
     req_params := Some (JObj [("jql", JStr jql); ("startAt", JNum start_at);
                               ("maxResults", JNum 100)]);
     req_json := None;
     req_auth := Some {| username := "user"; password := "pat" |};
     req_timeout := 30 |}.

Definition ok (j : json) : py Response := Ret {| status_code := 200; body := BodyJson j |}.

(** Issues numbered [first], [first + 1], ..., [count] of them. *)
Fixpoint issues_from (first : Z) (count : nat) : list json :=
  match count with
  | O => []
  | Datatypes.S n => JObj [("id", JNum first)] :: issues_from (first + 1) n
  end.

(** A search endpoint holding 240 issues, served 100 at a time. *)
Definition server_240 : list Request -> Request -> py Response :=
  fun _ req =>
    match param "startAt" req with
    | Some 0 => ok (JObj [("issues", JArr (issues_from 0 100)); ("total", JNum 240)])
    | Some 100 => ok (JObj [("issues", JArr (issues_from 100 100)); ("total", JNum 240)])
    | Some 200 => ok (JObj [("issues", JArr (issues_from 200 40)); ("total", JNum 240)])
    | _ => ok (JObj [("issues", JArr []); ("total", JNum 240)])
    end.

Definition pat_240 : Platform :=
  mock pat_env server_240 (Ret false) (Raise NotModelled) None.

(** A search endpoint whose total stays two ahead of the offset asked for. *)
Definition server_growing : list Request -> Request -> py Response :=
  fun _ req =>
    match param "startAt" req with
    | Some s => ok (JObj [("issues", JArr (issues_from s 1)); ("total", JNum (s + 2))])
    | None => Ret {| status_code := 400; body := BodyEmpty |}
    end.

Definition pat_growing : Platform :=
  mock pat_env server_growing (Ret false) (Raise NotModelled) None.

(** A search endpoint with three issues, served one at a time. *)
Definition server_three : list Request -> Request -> py Response :=
  fun _ req =>
    match param "startAt" req with
    | Some s =>
        ok (JObj [("issues", JArr (if s <? 3 then issues_from s 1 else []));
                  ("total", JNum 3)])
    | None => Ret {| status_code := 400; body := BodyEmpty |}
    end.

Definition pat_three : Platform :=
  mock pat_env server_three (Ret false) (Raise NotModelled) None.

(** A server that answers the first search page and fails every other
    request with status 500. *)
Definition server_failing : list Request -> Request -> py Response :=
  fun _ req =>
    match param "startAt" req with
    | Some 0 => ok (JObj [("issues", JArr (issues_from 0 2)); ("total", JNum 4)])
    | _ => Ret {| status_code := 500; body := BodyEmpty |}
    end.

Definition pat_failing : Platform :=
  mock pat_env server_failing (Ret false) (Raise NotModelled) None.

Definition desk (id : string) : json := JObj [("id", JStr id); ("projectKey", JStr "SD")].

(** A service desk endpoint with three projects on two pages: the first
    page says it is not the last one, the second says it is. *)
Definition server_two_pages : list Request -> Request -> py Response :=
  fun _ req =>
    match param "start" req with
    | Some 0 =>
        ok (JObj [("values", JArr [desk "1"; desk "2"]); ("isLastPage", JBool false)])
    | _ => ok (JObj [("values", JArr [desk "3"]); ("isLastPage", JBool true)])
    end.

Definition pat_two_pages : Platform :=
  mock pat_env server_two_pages (Ret false) (Raise NotModelled) None.

Definition server_404 : list Request -> Request -> py Response :=
  fun _ _ => Ret {| status_code := 404; body := BodyJson (JObj [("errorMessages", JArr [])]) |}.

Definition pat_404 : Platform :=
  mock pat_env server_404 (Ret false) (Raise NotModelled) None.

(** No route to the host: every request ends in a transport failure. *)
Definition pat_down : Platform :=
  mock pat_env no_server (Ret false) (Raise NotModelled) None.

(** OAuth mode with a stored credential whose refresh token was revoked. *)
Definition oauth_revoked : Platform :=
  mock oauth_env no_server (Ret true) (Raise (OtherError "invalid_grant")) None.

(** OAuth mode in which the user has not yet consented. *)
Definition oauth_fresh : Platform :=
  mock oauth_env no_server (Ret false) (Raise NotModelled) None.

(** Agentspace configured next to a PAT. *)
Definition agentspace_env : gmap string string :=
  list_to_map [("AGENTSPACE_AUTH_ID", "auth1");
               ("JIRA_USERNAME", "user"); ("JIRA_API_TOKEN", "pat")].

Definition agentspace : Platform :=
  mock agentspace_env no_server (Ret false) (Raise NotModelled) None.

(** A tenant cache with the one tenant [https://a.example]. *)
Definition cache_a : json :=
  JObj [("https://a.example", JObj [("id", JStr "1234"); ("name", JStr "A")])].


(** ** The rest of the module *)

(** The [is_success] method: [ResultsDict] answers [False], [ResultsSuccess]
    overrides it with [True]. *)
Definition is_success_method (r : ResultsDict) : bool :=
  match r with
  | ResultsSuccess _ => true
  | _ => false
  end.

(** The Atlassian document [{"type": "doc", "version": 1, "content": [...]}]
    with one paragraph holding [text], as [create_jira_issue],
    [update_jira_issue] and [add_comment_to_jira_issue] write it out. *)
Definition adf_doc (text : string) : json :=
  JObj [("type", JStr "doc");
        ("version", JNum 1);
        ("content",
         JArr [JObj [("type", JStr "paragraph");
                     ("content", JArr [JObj [("type", JStr "text");
                                             ("text", JStr text)]])]])].

Section Operations.
Context `{Platform}.

(** Lines 174-178 of [_api_call]: what becomes of the answer to the
    request. Only an [HTTPStatusError] is turned into an error result. *)
Definition response_outcome (endpoint : string) (req : Request)
    (answer : py Response) : py ResultsDict :=
  let failed msg :=
    Ret (ResultsError ("An error occurred while calling Jira API endpoint "
                       +:+ endpoint +:+ ": " +:+ msg)) in
  match answer with
  | Ret resp =>
      if is_2xx resp then
        match body resp with
        | BodyEmpty => Ret (ResultsSuccess (JObj []))
        | BodyJson j => Ret (ResultsSuccess j)
        | BodyMalformed => Raise JSONDecodeError
        end
      else failed (str_HTTPStatusError req resp)
  | Raise (HTTPStatusError msg) => failed msg
  | Raise e => Raise e
  end.




Definition get_jira_issue (jira_instance issue_id_or_key : string) : M ResultsDict :=
  jira_api_call jira_instance "GET" ("/rest/api/3/issue/" +:+ issue_id_or_key) None None.

(** [summary] and [description] default to [None] in the source. *)
Definition update_jira_issue (jira_instance issue_id_or_key : string)
    (summary description : option string) : M ResultsDict :=
  let fields := [] in
  let fields :=
    if str_truthy summary
    then assoc_set "summary" (JStr (default EmptyString summary)) fields
    else fields in
  let fields :=
    if str_truthy description
    then assoc_set "description" (adf_doc (default EmptyString description)) fields
    else fields in
  if negb (truthy (JObj fields)) then
    ret (ResultsError "No fields to update were provided.")
  else
    jira_api_call jira_instance "PUT" ("/rest/api/3/issue/" +:+ issue_id_or_key)
      (Some (JObj [("fields", JObj fields)])) None.

Definition delete_jira_issue (jira_instance issue_id_or_key : string) : M ResultsDict :=
  jira_api_call jira_instance "DELETE" ("/rest/api/3/issue/" +:+ issue_id_or_key)
    None None.




End Operations.

(** The request [_api_call] builds once it has its credentials. *)
Definition api_request (endpoint method path : string) (json_data params : option json)
    (auth : option BasicAuth) (headers : list (string * json)) : Request :=
  {| req_method := method; req_url := endpoint +:+ path;
     req_headers := headers; req_params := params;
     req_json := json_data; req_auth := auth; req_timeout := 30 |}.

(** [items] is a discovery response: every item is an object whose [url] is
    a string and which has an [id] and a [name]. *)
Fixpoint tenants (items : list json) : Prop :=
  match items with
  | [] => True
  | k :: rest =>
      (exists u id name,
         py_getitem k "url" = Ret (JStr u)
         /\ py_getitem k "id" = Ret id
         /\ py_getitem k "name" = Ret name)
      /\ tenants rest
  end.

(** ** More test doubles *)

(** The discovery endpoint lists one tenant; everything else answers
    [{"foo": 1}]. *)
Definition server_discovery : list Request -> Request -> py Response :=
  fun _ req =>
    if String.eqb (req_url req) "https://api.atlassian.com/oauth/token/accessible-resources"
    then ok (JArr [JObj [("id", JStr "1234"); ("url", JStr "https://a.example");
                         ("name", JStr "A"); ("scopes", JArr [])]])
    else ok (JObj [("foo", JNum 1)]).

(** OAuth mode with a credential that is still good. *)
Definition oauth_discovering : Platform :=
  mock oauth_env server_discovery (Ret false) (Raise NotModelled) None.

(** OAuth mode with a credential that is due and a refresh that works. *)
Definition oauth_refreshing : Platform :=
  mock oauth_env no_server (Ret true) (Ret (mock_cred (Some "access-2"))) None.

(** OAuth mode just after the user has consented. *)
Definition oauth_granted : Platform :=
  mock oauth_env no_server (Ret false) (Raise NotModelled)
       (Some (mock_cred (Some "access-1"))).

(** A PAT without a fixed tenant. *)
Definition pat_only_env : gmap string string :=
  list_to_map [("JIRA_USERNAME", "user"); ("JIRA_API_TOKEN", "pat")].

Definition pat_only : Platform :=
  mock pat_only_env no_server (Ret false) (Raise NotModelled) None.

(** The fixed tenant answers every request with [{"foo": 1}]. *)
Definition server_foo : list Request -> Request -> py Response :=
  fun _ _ => ok (JObj [("foo", JNum 1)]).

Definition pat_foo : Platform :=
  mock pat_env server_foo (Ret false) (Raise NotModelled) None.

(** The search endpoint answers with an empty body. *)
Definition server_empty : list Request -> Request -> py Response :=
  fun _ _ => Ret {| status_code := 200; body := BodyEmpty |}.

Definition pat_empty : Platform :=
  mock pat_env server_empty (Ret false) (Raise NotModelled) None.

(** [m] takes every world to one that stands in [R] to it. *)
Definition preserves {A : Type} (R : World -> World -> Prop) (m : M A) : Prop :=
  forall w, R w (snd (m w)).

(** What the session holds under [key], if there is a session. *)
Definition session_key (key : string) (w : World) : option json :=
  match tool_context w with
  | Some tc => state tc !! key
  | None => None
  end.

(** No request was attempted between [w] and [w']. *)
Definition same_requests (w w' : World) : Prop := sent w' = sent w.

(** Between [w] and [w'] the session was neither dropped nor created, and
    it holds the same values except under the keys [written]. *)
Definition same_session_but (written : list string) (w w' : World) : Prop :=
  (tool_context w = None <-> tool_context w' = None)
  /\ forall key, ~ In key written -> session_key key w' = session_key key w.

(** Discovery finds no tenant the first time and fails afterwards. *)
Definition server_no_tenants : list Request -> Request -> py Response :=
  fun before _ =>
    match before with
    | [] => ok (JArr [])
    | _ => Ret {| status_code := 503; body := BodyEmpty |}
    end.

Definition oauth_no_tenants : Platform :=
  mock oauth_env server_no_tenants (Ret false) (Raise NotModelled) None.

(** The discovery request, line 263. *)
Definition discovery `{Platform} : M ResultsDict :=
  _api_call "https://api.atlassian.com" "GET" "/oauth/token/accessible-resources"
    None None.

(** * Properties *)

(** ** The loop combinator *)

Section Loop.
Context {S : Type} (body : S -> M (loop_step S)).

Lemma while_true_break fuel s w r w' :
  body s w = (Ret (Break r), w') ->
  while_true (Datatypes.S fuel) body s w = Some (Ret r, w').
Proof. intros Hb. simpl. now rewrite Hb. Qed.

Lemma while_true_continue fuel s w s' w' :
  body s w = (Ret (Continue s'), w') ->
  while_true (Datatypes.S fuel) body s w = while_true fuel body s' w'.
Proof. intros Hb. simpl. now rewrite Hb. Qed.

Lemma while_true_passes n fuel s w s' w' :
  passes body n s w s' w' ->
  while_true (n + fuel) body s w = while_true fuel body s' w'.
Proof.
  induction 1 as [|n s w s1 w1 s2 w2 Hstep _ IH]; [reflexivity|].
  change (Datatypes.S n + fuel)%nat with (Datatypes.S (n + fuel)).
  rewrite (while_true_continue _ _ _ _ _ Hstep). exact IH.
Qed.

(** A loop that has gone round forever so far has no result yet. *)
Lemma while_true_diverges (inv : S -> World -> Prop) :
  (forall s w, inv s w -> exists s' w', body s w = (Ret (Continue s'), w') /\ inv s' w') ->
  forall fuel s w, inv s w -> while_true fuel body s w = None.
Proof.
  intros Hstep fuel. induction fuel as [|fuel IH]; intros s w Hinv; [reflexivity|].
  destruct (Hstep s w Hinv) as (s' & w' & Hb & Hinv').
  rewrite (while_true_continue _ _ _ _ _ Hb). now apply IH.
Qed.
End Loop.

(** ** One pass of each list operation *)

Section Passes.
Context `{Platform}.

Lemma is_success_false r :
  is_success r = false <-> r = ResultsPending \/ exists message, r = ResultsError message.
Proof.
  destruct r as [|message|data]; cbn; split; intros Hr; try reflexivity; eauto.
  - discriminate.
  - destruct Hr as [Hr|[? Hr]]; discriminate.
Qed.

Lemma list_jira_issues_body_abort inst jql start_at all w r w' :
  search_page inst jql start_at w = (Ret r, w') ->
  is_success r = false ->
  list_jira_issues_body inst jql (start_at, all) w = (Ret (Break r), w').
Proof.
  intros Hcall Hr. unfold list_jira_issues_body, bind. rewrite Hcall, Hr. reflexivity.
Qed.

Lemma list_jsm_service_projects_body_abort inst start all w r w' :
  servicedesk_page inst start w = (Ret r, w') ->
  is_success r = false ->
  list_jsm_service_projects_body inst (start, all) w = (Ret (Break r), w').
Proof.
  intros Hcall Hr. unfold list_jsm_service_projects_body, bind. rewrite Hcall, Hr.
  reflexivity.
Qed.

(** On a successful page the only test is offset plus page length against
    the reported total. *)
Lemma list_jira_issues_body_success inst jql start_at all w w' payload p t :
  search_page inst jql start_at w = (Ret (ResultsSuccess payload), w') ->
  py_get payload "issues" (JArr []) = Ret (JArr p) ->
  py_get payload "total" (JNum 0) = Ret (JNum t) ->
  list_jira_issues_body inst jql (start_at, all) w =
    (Ret (if start_at + Z.of_nat (length p) >=? t
          then Break (ResultsSuccess (JArr (all ++ p)%list))
          else Continue (start_at + Z.of_nat (length p), (all ++ p)%list)), w').
Proof.
  intros Hcall Hissues Htotal.
  unfold list_jira_issues_body, bind. rewrite Hcall. cbn.
  unfold lift. rewrite Hissues, Htotal. cbn.
  now destruct (start_at + Z.of_nat (length p) >=? t).
Qed.
End Passes.

(** ** Pagination *)

(** C6. Three successful pages of 100, 100 and 40 issues, each reporting a
    total of 240 and asked for at offsets 0, 100 and 200, make
    [list_jira_issues] return a success whose data is the three pages in
    order, 240 issues in all. *)
Theorem list_jira_issues_three_pages `{Platform} (inst jql : string)
    (d1 d2 d3 : json) (p1 p2 p3 : list json) (w0 w1 w2 w3 : World) (fuel : nat) :
  search_page inst jql 0 w0 = (Ret (ResultsSuccess d1), w1) ->
  search_page inst jql 100 w1 = (Ret (ResultsSuccess d2), w2) ->
  search_page inst jql 200 w2 = (Ret (ResultsSuccess d3), w3) ->
  is_page d1 p1 240 -> is_page d2 p2 240 -> is_page d3 p3 240 ->
  length p1 = 100%nat -> length p2 = 100%nat -> length p3 = 40%nat ->
  list_jira_issues (3 + fuel) inst jql w0
    = Some (Ret (ResultsSuccess (JArr (p1 ++ p2 ++ p3)%list)), w3)
  /\ length (p1 ++ p2 ++ p3)%list = 240%nat.
Proof.
  intros H1 H2 H3 [Hi1 Ht1] [Hi2 Ht2] [Hi3 Ht3] L1 L2 L3. split.
  - pose proof (list_jira_issues_body_success _ _ _ [] _ _ _ _ _ H1 Hi1 Ht1) as B1.
    rewrite L1 in B1. change (0 + Z.of_nat 100 >=? 240) with false in B1.
    change (0 + Z.of_nat 100) with 100 in B1.
    pose proof (list_jira_issues_body_success _ _ _ ([] ++ p1)%list _ _ _ _ _ H2 Hi2 Ht2)
      as B2.
    rewrite L2 in B2. change (100 + Z.of_nat 100 >=? 240) with false in B2.
    change (100 + Z.of_nat 100) with 200 in B2.
    pose proof (list_jira_issues_body_success _ _ _ (([] ++ p1) ++ p2)%list
                  _ _ _ _ _ H3 Hi3 Ht3) as B3.
    rewrite L3 in B3. change (200 + Z.of_nat 40 >=? 240) with true in B3.
    unfold list_jira_issues. change (3 + fuel)%nat with (Datatypes.S (Datatypes.S (Datatypes.S fuel))).
    rewrite (while_true_continue _ _ _ _ _ _ B1), (while_true_continue _ _ _ _ _ _ B2),
      (while_true_break _ _ _ _ _ _ B3).
    now rewrite app_nil_l, <- app_assoc.
  - rewrite !length_app. lia.
Qed.

Lemma list_jira_issues_three_pages_witness :
  exists w,
    list_jira_issues (H := pat_240) 3 "https://a.example" "project = SD" no_context
    = Some (Ret (ResultsSuccess
                   (JArr (issues_from 0 100 ++ issues_from 100 100 ++ issues_from 200 40)%list)),
            w)
    /\ length (issues_from 0 100 ++ issues_from 100 100 ++ issues_from 200 40)%list = 240%nat.
Proof.
  eexists.
  eapply (list_jira_issues_three_pages (H := pat_240) "https://a.example" "project = SD"
            _ _ _ (issues_from 0 100) (issues_from 100 100) (issues_from 200 40)
            no_context _ _ _ 0).
  - vm_compute. reflexivity.
  - vm_compute. reflexivity.
  - vm_compute. reflexivity.
  - split; vm_compute; reflexivity.
  - split; vm_compute; reflexivity.
  - split; vm_compute; reflexivity.
  - vm_compute. reflexivity.
  - vm_compute. reflexivity.
  - vm_compute. reflexivity.
Defined.

(** C5. Whatever pages came before, when a page request of
    [list_jira_issues] or of [list_jsm_service_projects] comes back as an
    error or as pending, the operation returns exactly that outcome, not a
    success holding the items gathered so far. *)
Theorem pagination_abort `{Platform} (inst jql : string) (n : nat)
    (s : Z * list json) (w0 w w' : World) (r : ResultsDict) (fuel : nat) :
  is_success r = false ->
  (passes (list_jira_issues_body inst jql) n (0, []) w0 s w ->
   search_page inst jql (fst s) w = (Ret r, w') ->
   list_jira_issues (n + Datatypes.S fuel) inst jql w0 = Some (Ret r, w'))
  /\
  (passes (list_jsm_service_projects_body inst) n (0, []) w0 s w ->
   servicedesk_page inst (fst s) w = (Ret r, w') ->
   list_jsm_service_projects (n + Datatypes.S fuel) inst w0 = Some (Ret r, w')).
Proof.
  intros Hr. destruct s as [offset items]. split; intros Hp Hcall.
  - unfold list_jira_issues. rewrite (while_true_passes _ _ _ _ _ _ _ Hp).
    apply while_true_break. now apply list_jira_issues_body_abort.
  - unfold list_jsm_service_projects. rewrite (while_true_passes _ _ _ _ _ _ _ Hp).
    apply while_true_break. now apply list_jsm_service_projects_body_abort.
Qed.

Lemma pagination_abort_witness :
  (exists w,
     list_jira_issues (H := pat_failing) 2 "https://a.example" EmptyString no_context
     = Some (Ret (ResultsError
                    ("An error occurred while calling Jira API endpoint https://a.example"
                     +:+ ": Server error for url 'https://a.example/rest/api/3/search'")),
             w))
  /\
  (exists w,
     list_jsm_service_projects (H := pat_failing) 1 "https://a.example" no_context
     = Some (Ret (ResultsError
                    ("An error occurred while calling Jira API endpoint https://a.example"
                     +:+ ": Server error for url "
                     +:+ "'https://a.example/rest/servicedeskapi/servicedesk'")),
             w)).
Proof.
  split; eexists.
  - eapply (proj1 (pagination_abort (H := pat_failing) "https://a.example" EmptyString
                     1 (2, issues_from 0 2) no_context _ _ (ResultsError _) 0 eq_refl)).
    + eapply passes_S; [vm_compute; reflexivity | apply passes_O].
    + vm_compute. reflexivity.
  - eapply (proj2 (pagination_abort (H := pat_failing) "https://a.example" EmptyString
                     0 (0, []) no_context _ _ (ResultsError _) 0 eq_refl)).
    + apply passes_O.
    + vm_compute. reflexivity.
Defined.

(** One more pass at the end of a run of passes. *)
Lemma passes_snoc {S : Type} (body : S -> M (loop_step S)) n s w s1 w1 s2 w2 :
  passes body n s w s1 w1 ->
  body s1 w1 = (Ret (Continue s2), w2) ->
  passes body (Datatypes.S n) s w s2 w2.
Proof.
  intros Hpasses. revert s2 w2.
  induction Hpasses as [s w|n s w s1 w1 s3 w3 Hfirst _ IH]; intros s2 w2 Hstep.
  - eapply passes_S; [exact Hstep | apply passes_O].
  - eapply passes_S; [exact Hfirst | exact (IH _ _ Hstep)].
Qed.

Section Termination.
Context `{Platform} (inst jql : string) (w0 : World) (bound : Z).
Hypothesis pages : well_paged inst jql w0.
Hypothesis totals : bounded_totals inst jql w0 bound.

(** A pass that goes round again leads to a page the loop asks for. *)
Lemma received_next s w s' w' :
  received inst jql w0 s w ->
  list_jira_issues_body inst jql s w = (Ret (Continue s'), w') ->
  received inst jql w0 s' w'.
Proof.
  intros [n Hpasses] Hstep. exists (Datatypes.S n).
  exact (passes_snoc _ _ _ _ _ _ _ _ Hpasses Hstep).
Qed.

(** With the distance to the bound as measure, the loop leaves within one
    pass more than that distance. *)
Lemma list_jira_issues_loop_returns k :
  forall s w,
    received inst jql w0 s w -> bound - fst s <= Z.of_nat k ->
    exists data w',
      while_true (Datatypes.S k) (list_jira_issues_body inst jql) s w
      = Some (Ret (ResultsSuccess data), w').
Proof.
  induction k as [|k IH]; intros [start_at all] w Hreceived Hdist;
    destruct (pages _ w Hreceived) as (payload & p & t & w' & Hcall & Hpage & Hor);
    pose proof (totals _ _ _ _ _ _ Hreceived Hcall Hpage) as Ht;
    destruct Hpage as [Hissues Htotal]; cbn [fst] in *;
    pose proof (list_jira_issues_body_success _ _ _ all _ _ _ _ _ Hcall Hissues Htotal) as Hb;
    destruct (start_at + Z.of_nat (length p) >=? t) eqn:E.
  - eexists _, _. apply while_true_break. exact Hb.
  - rewrite Z.geb_leb in E; apply Z.leb_gt in E. lia.
  - eexists _, _. apply while_true_break. exact Hb.
  - rewrite Z.geb_leb in E; apply Z.leb_gt in E.
    rewrite (while_true_continue _ _ _ _ _ _ Hb).
    assert (1 <= Z.of_nat (length p))
      by (destruct Hor as [Hne|?]; [destruct p; [congruence | cbn; lia] | lia]).
    apply IH; [exact (received_next _ _ _ _ Hreceived Hb) | cbn [fst]; lia].
Qed.
End Termination.

(** C10. [list_jira_issues] returns, with a success, when every page its
    loop asks for is a success that holds an issue or reports a total no
    greater than offset plus issues held, and the totals of these pages stay
    below a fixed bound. The loop is left only when offset plus issues held
    reaches the total of the page, so an empty page under a larger total
    goes round again with the offset and the gathered issues unchanged. *)
Theorem list_jira_issues_terminates `{Platform} (inst jql : string)
    (bound : Z) (w0 : World) :
  well_paged inst jql w0 -> bounded_totals inst jql w0 bound ->
  (exists fuel data w',
     list_jira_issues fuel inst jql w0 = Some (Ret (ResultsSuccess data), w'))
  /\
  (forall start_at all w w' payload p t,
     search_page inst jql start_at w = (Ret (ResultsSuccess payload), w') ->
     is_page payload p t ->
     list_jira_issues_body inst jql (start_at, all) w =
       (Ret (if start_at + Z.of_nat (length p) >=? t
             then Break (ResultsSuccess (JArr (all ++ p)%list))
             else Continue (start_at + Z.of_nat (length p), (all ++ p)%list)), w'))
  /\
  (forall start_at all w w' payload t,
     search_page inst jql start_at w = (Ret (ResultsSuccess payload), w') ->
     is_page payload [] t -> start_at < t ->
     list_jira_issues_body inst jql (start_at, all) w = (Ret (Continue (start_at, all)), w')).
Proof.
  intros Hpages Htotals. split; [|split].
  - destruct (list_jira_issues_loop_returns inst jql w0 bound Hpages Htotals
                (Z.to_nat bound) (0, []) w0) as (data & w' & Hrun).
    + exists O. apply passes_O.
    + cbn [fst]. lia.
    + now exists (Datatypes.S (Z.to_nat bound)), data, w'.
  - intros start_at all w w' payload p t Hcall [Hissues Htotal].
    exact (list_jira_issues_body_success _ _ _ all _ _ _ _ _ Hcall Hissues Htotal).
  - intros start_at all w w' payload t Hcall [Hissues Htotal] Hlt.
    rewrite (list_jira_issues_body_success _ _ _ all _ _ _ _ _ Hcall Hissues Htotal).
    cbn [length Z.of_nat]. rewrite Z.add_0_r, app_nil_r.
    destruct (start_at >=? t) eqn:E; [|reflexivity].
    apply Z.geb_le in E. lia.
Qed.

(** The search endpoint of [pat_240] at the three offsets it serves,
    whatever the world. *)
Lemma search_page_240 start_at w :
  start_at = 0 \/ start_at = 100 \/ start_at = 200 ->
  search_page (H := pat_240) "https://a.example" EmptyString start_at w
  = (Ret (ResultsSuccess
            (JObj [("issues",
                    JArr (issues_from start_at (if start_at =? 200 then 40 else 100)));
                   ("total", JNum 240)])),
     logged w (pat_search_request EmptyString start_at)).
Proof. intros [->|[->| ->]]; reflexivity. Qed.

(** The loop against [pat_240] only ever asks at offsets 0, 100 and 200. *)
Lemma received_240 s w :
  received (H := pat_240) "https://a.example" EmptyString no_context s w ->
  fst s = 0 \/ fst s = 100 \/ fst s = 200.
Proof.
  intros [n Hpasses].
  assert (Hfrom : forall s0 w0,
             passes (list_jira_issues_body (H := pat_240) "https://a.example" EmptyString)
               n s0 w0 s w ->
             fst s0 = 0 \/ fst s0 = 100 \/ fst s0 = 200 ->
             fst s = 0 \/ fst s = 100 \/ fst s = 200).
  { clear Hpasses. intros s0 w0 Hpasses.
    induction Hpasses as [s w|n s w s1 w1 s2 w2 Hstep _ IH]; intros Hs; [exact Hs|].
    apply IH. destruct s as [start_at all]. cbn [fst] in Hs.
    rewrite (list_jira_issues_body_success (H := pat_240) _ _ _ all _ _ _ _ _
               (search_page_240 start_at w Hs) eq_refl eq_refl) in Hstep.
    destruct Hs as [->|[->| ->]]; vm_compute in Hstep;
      first [discriminate | injection Hstep as <- _; cbn [fst]; auto]. }
  apply (Hfrom _ _ Hpasses). now left.
Qed.

Lemma list_jira_issues_terminates_witness :
  exists fuel data w',
    list_jira_issues (H := pat_240) fuel "https://a.example" EmptyString no_context
    = Some (Ret (ResultsSuccess data), w').
Proof.
  refine (proj1 (list_jira_issues_terminates (H := pat_240) "https://a.example"
                   EmptyString 240 no_context _ _)).
  - intros s w Hreceived. pose proof (received_240 s w Hreceived) as Hs.
    eexists _, _, _, _. split; [exact (search_page_240 (fst s) w Hs)|].
    split; [split; reflexivity|]. left.
    destruct Hs as [->|[->| ->]]; discriminate.
  - intros s w payload p t w' Hreceived Hcall [_ Htotal].
    rewrite (search_page_240 (fst s) w (received_240 s w Hreceived)) in Hcall.
    injection Hcall as <- _. cbn in Htotal. injection Htotal as <-. lia.
Defined.

(** The search endpoint of [pat_growing], whatever the world. *)
Lemma search_page_growing start_at w :
  search_page (H := pat_growing) "https://a.example" EmptyString start_at w
  = (Ret (ResultsSuccess (JObj [("issues", JArr [JObj [("id", JNum start_at)]]);
                                ("total", JNum (start_at + 2))])),
     logged w (pat_search_request EmptyString start_at)).
Proof. reflexivity. Qed.

(** C10, as stated, fails: a server whose every page holds one issue and
    reports a total two above the offset keeps [list_jira_issues] in its
    loop for ever. *)
Lemma list_jira_issues_growing_total_never_returns :
  well_paged (H := pat_growing) "https://a.example" EmptyString no_context
  /\ forall fuel,
       list_jira_issues (H := pat_growing) fuel "https://a.example" EmptyString no_context
       = None.
Proof.
  split.
  - intros s w _.
    eexists _, _, _, _. split; [apply search_page_growing|].
    split; [split; reflexivity|]. left. discriminate.
  - intros fuel. unfold list_jira_issues.
    apply (while_true_diverges _ (fun _ _ => True)); [|exact I].
    intros [start_at all] w _. eexists _, _. split; [|exact I].
    rewrite (list_jira_issues_body_success (H := pat_growing) _ _ _ all _ _ _ _ _
               (search_page_growing start_at w) eq_refl eq_refl).
    change (Z.of_nat (length [JObj [("id", JNum start_at)]])) with 1.
    destruct (start_at + 1 >=? start_at + 2) eqn:E; [|reflexivity].
    apply Z.geb_le in E. lia.
Qed.

(** A pass of [list_jsm_service_projects] never goes round again: the
    results dictionary it tests has no key [isLastPage]. *)
Lemma list_jsm_service_projects_body_leaves `{Platform} inst s w :
  (exists r, fst (list_jsm_service_projects_body inst s w) = Ret (Break r))
  \/ (exists e, fst (list_jsm_service_projects_body inst s w) = Raise e).
Proof.
  destruct s as [start all]. unfold list_jsm_service_projects_body, bind.
  destruct (servicedesk_page inst start w) as [[r|e] w1]; [|right; eauto].
  destruct r as [|message|data]; cbn; [left; eauto | left; eauto |].
  unfold lift. destruct (py_get data "values" (JArr [])) as [v|e]; [|right; eauto].
  destruct (py_iter v); [left; eauto | right; eauto].
Qed.

(** C3. [list_jsm_service_projects] leaves its loop after the first page
    whatever the page says: every pass ends the function, and against a
    server whose first page has [isLastPage] false and whose second has it
    true, the result holds the first page only and one request was sent. *)
Theorem list_jsm_service_projects_single_page :
  (forall (P : Platform) inst s w,
     (exists r, fst (list_jsm_service_projects_body (H := P) inst s w) = Ret (Break r))
     \/ (exists e, fst (list_jsm_service_projects_body (H := P) inst s w) = Raise e))
  /\
  (exists w,
     list_jsm_service_projects (H := pat_two_pages) 5 "https://a.example" no_context
     = Some (Ret (ResultsSuccess (JArr [desk "1"; desk "2"])), w)
     /\ length (sent w) = 1%nat).
Proof.
  split.
  - intros P inst s w. apply list_jsm_service_projects_body_leaves.
  - eexists. split; vm_compute; reflexivity.
Qed.

(** ** Tenants *)

(** An instance that [auth_list_jira_instances] does not list is answered
    with the literal text of line 316. *)
Lemma jira_api_call_unknown `{Platform} inst method path json_data params w data w' :
  auth_list_jira_instances w = (Ret (ResultsSuccess data), w') ->
  py_in inst data = Ret false ->
  jira_api_call inst method path json_data params w
  = (Ret (ResultsError unknown_instance_message), w').
Proof.
  intros Hlist Hin. unfold jira_api_call, bind. rewrite Hlist. cbn.
  unfold lift. now rewrite Hin.
Qed.

(** C4. Against a tenant cache holding only [https://a.example], a call for
    [https://b.example] returns an error whose message is the unformatted
    template: it names neither the tenant asked for nor [a.example]. *)
Theorem jira_api_call_unknown_instance_message :
  jira_api_call (H := oauth_fresh) "https://b.example" "GET" "/rest/api/3/serverInfo"
    None None (session {[JIRA_INSTANCE_CACHE := cache_a]})
  = (Ret (ResultsError unknown_instance_message),
     session {[JIRA_INSTANCE_CACHE := cache_a]})
  /\ contains "a.example" unknown_instance_message = false
  /\ contains "https://b.example" unknown_instance_message = false.
Proof. repeat split; vm_compute; reflexivity. Qed.

(** C9. When no fixed tenant is configured and the tenant cache entry of the
    session is populated, [auth_list_jira_instances] returns a success with
    the cached map and leaves the world as it was, so that no request is
    sent and a second call returns the same map. *)
Theorem auth_list_jira_instances_cached `{Platform} (tc : ToolContext)
    (requests : list Request) (cache : json) :
  str_truthy (os_getenv "JIRA_INSTANCE") = false ->
  state tc !! JIRA_INSTANCE_CACHE = Some cache ->
  truthy cache = true ->
  let w := {| tool_context := Some tc; sent := requests |} in
  auth_list_jira_instances w = (Ret (ResultsSuccess cache), w)
  /\ (first <- auth_list_jira_instances ;;
      second <- auth_list_jira_instances ;;
      ret (first, second)) w
     = (Ret (ResultsSuccess cache, ResultsSuccess cache), w).
Proof.
  intros Henv Hcache Htruthy w.
  assert (Hcall : auth_list_jira_instances w = (Ret (ResultsSuccess cache), w)).
  { unfold auth_list_jira_instances. rewrite Henv.
    assert (Hctx : has_context w = true).
    { cbn. apply state_bool_nonempty. intros Hempty.
      rewrite Hempty, lookup_empty in Hcache. discriminate. }
    rewrite Hctx. unfold bind, state_get, state_getitem. cbn.
    rewrite Hcache. cbn. rewrite Htruthy. cbn. now rewrite Hcache. }
  split; [exact Hcall|]. unfold bind. now rewrite !Hcall.
Qed.

Lemma auth_list_jira_instances_cached_witness :
  auth_list_jira_instances (H := oauth_fresh) (session {[JIRA_INSTANCE_CACHE := cache_a]})
  = (Ret (ResultsSuccess cache_a), session {[JIRA_INSTANCE_CACHE := cache_a]}).
Proof.
  refine (proj1 (auth_list_jira_instances_cached (H := oauth_fresh)
                   {| state := {[JIRA_INSTANCE_CACHE := cache_a]}; requested := [] |}
                   [] cache_a _ _ _)).
  - reflexivity.
  - vm_compute. reflexivity.
  - reflexivity.
Defined.

(** ** Credential strategies *)

Lemma str_truthy_Some (s : string) : s <> EmptyString -> str_truthy (Some s) = true.
Proof. intros Hs. cbn. now apply negb_true_iff, String.eqb_neq. Qed.

Section Strategies.
Context `{Platform}.

(** Looking for the delegated token returns a value and changes nothing. *)
Lemma delegated_token_total w : exists token, delegated_token w = (Ret token, w).
Proof.
  unfold delegated_token, has_context, state_get.
  destruct (str_truthy (os_getenv "AGENTSPACE_AUTH_ID")); cbn; [|eauto].
  destruct (tool_context w) as [tc|]; [|eauto].
  destruct (state_bool (state tc)); eauto.
Qed.

Lemma delegated_token_found w auth_id tc token :
  os_getenv "AGENTSPACE_AUTH_ID" = Some auth_id -> auth_id <> EmptyString ->
  tool_context w = Some tc ->
  state tc !! ("temp:" +:+ auth_id) = Some token ->
  delegated_token w = (Ret token, w).
Proof.
  intros Henv Hid Htc Htoken. unfold delegated_token, has_context, state_get.
  rewrite Henv, (str_truthy_Some _ Hid), Htc. cbn.
  rewrite state_bool_nonempty.
  - now rewrite Htoken.
  - intros Hempty. rewrite Hempty, lookup_empty in Htoken. discriminate.
Qed.

Lemma delegated_token_unconfigured w :
  os_getenv "AGENTSPACE_AUTH_ID" = None -> delegated_token w = (Ret JNull, w).
Proof. intros Henv. unfold delegated_token. now rewrite Henv. Qed.
End Strategies.

(** C7. Selecting the strategy always yields one strategy and changes
    nothing. A configured auth identifier whose token is in the session
    selects the delegated token, whatever the PAT variables say; without a
    delegated token, a configured user name and API token select the PAT;
    with the auth identifier and both PAT variables absent, OAuth is
    selected. The request is then built from the selected strategy alone. *)
Theorem select_strategy_precedence `{Platform} (w : World) :
  (exists strategy, select_strategy w = (Ret strategy, w))
  /\
  (forall auth_id tc token,
     os_getenv "AGENTSPACE_AUTH_ID" = Some auth_id -> auth_id <> EmptyString ->
     tool_context w = Some tc ->
     state tc !! ("temp:" +:+ auth_id) = Some token -> truthy token = true ->
     select_strategy w = (Ret (Delegated token), w))
  /\
  (forall token user api_token,
     delegated_token w = (Ret token, w) -> truthy token = false ->
     os_getenv "JIRA_USERNAME" = Some user -> user <> EmptyString ->
     os_getenv "JIRA_API_TOKEN" = Some api_token -> api_token <> EmptyString ->
     select_strategy w
     = (Ret (StaticPAT {| username := user; password := api_token |}), w))
  /\
  (os_getenv "AGENTSPACE_AUTH_ID" = None ->
   os_getenv "JIRA_USERNAME" = None -> os_getenv "JIRA_API_TOKEN" = None ->
   select_strategy w = (Ret ManagedOAuth, w))
  /\
  (forall strategy,
     select_strategy w = (Ret strategy, w) ->
     resolve_auth w =
       match strategy with
       | Delegated token => (Ret (Proceed None (bearer (py_str token) default_headers)), w)
       | StaticPAT auth => (Ret (Proceed (Some auth) default_headers), w)
       | ManagedOAuth => oauth_headers default_headers w
       end).
Proof.
  repeat split.
  - destruct (delegated_token_total w) as [token Htoken].
    unfold select_strategy, bind. rewrite Htoken.
    destruct (truthy token); [eauto|].
    destruct (str_truthy (os_getenv "JIRA_USERNAME") && str_truthy (os_getenv "JIRA_API_TOKEN"));
      eauto.
  - intros auth_id tc token Henv Hid Htc Hstate Htruthy.
    unfold select_strategy, bind.
    rewrite (delegated_token_found w auth_id tc token Henv Hid Htc Hstate).
    now rewrite Htruthy.
  - intros token user api_token Htoken Hfalsy Huser Hu Hpat Hp.
    unfold select_strategy, bind. rewrite Htoken, Hfalsy, Huser, Hpat.
    now rewrite (str_truthy_Some _ Hu), (str_truthy_Some _ Hp).
  - intros Hid Huser Hpat. unfold select_strategy, bind.
    rewrite (delegated_token_unconfigured w Hid). cbn. now rewrite Huser, Hpat.
  - intros strategy Hsel. unfold resolve_auth, bind. rewrite Hsel.
    now destruct strategy.
Qed.

Lemma select_strategy_precedence_witness :
  select_strategy (H := agentspace) (session {["temp:auth1" := JStr "tok"]})
  = (Ret (Delegated (JStr "tok")), session {["temp:auth1" := JStr "tok"]})
  /\ select_strategy (H := pat_240) no_context
     = (Ret (StaticPAT {| username := "user"; password := "pat" |}), no_context)
  /\ select_strategy (H := oauth_fresh) (session ∅) = (Ret ManagedOAuth, session ∅).
Proof.
  split; [|split].
  - refine (proj1 (proj2 (select_strategy_precedence (H := agentspace)
              (session {["temp:auth1" := JStr "tok"]})))
              "auth1" {| state := {["temp:auth1" := JStr "tok"]}; requested := [] |}
              (JStr "tok") _ _ _ _ _).
    + vm_compute. reflexivity.
    + discriminate.
    + reflexivity.
    + vm_compute. reflexivity.
    + reflexivity.
  - refine (proj1 (proj2 (proj2 (select_strategy_precedence (H := pat_240) no_context)))
              JNull "user" "pat" _ _ _ _ _ _).
    + vm_compute. reflexivity.
    + reflexivity.
    + vm_compute. reflexivity.
    + discriminate.
    + vm_compute. reflexivity.
    + discriminate.
  - refine (proj1 (proj2 (proj2 (proj2 (select_strategy_precedence (H := oauth_fresh)
              (session ∅))))) _ _ _); vm_compute; reflexivity.
Defined.

(** ** The OAuth refresh step *)

Section Refresh.
Context `{Platform}.

(** The OAuth branch of [_api_call] hands on what the refresh step
    returned when that is not a success. *)
Lemma _api_call_refresh_not_success endpoint method path json_data params w r w' :
  select_strategy w = (Ret ManagedOAuth, w) ->
  has_context w = true ->
  _refresh_credentials w = (Ret r, w') ->
  is_success r = false ->
  _api_call endpoint method path json_data params w = (Ret r, w').
Proof.
  intros Hsel Hctx Hrefresh Hr.
  unfold _api_call, resolve_auth, bind. rewrite Hsel.
  unfold oauth_headers, bind. now rewrite Hctx, Hrefresh, Hr.
Qed.

(** A stored credential whose refresh raises is replaced by [None], and
    the refresh step still returns a success. *)
Lemma _refresh_credentials_failure tc requests sch cr stored creds e :
  _get_auth_sheme_and_credential = Ret (sch, cr) ->
  state tc !! TOKEN_CACHE = Some (JStr stored) -> stored <> EmptyString ->
  validate_json stored = Some creds ->
  (is_refresh_needed creds sch = Raise e
   \/ (is_refresh_needed creds sch = Ret true /\ refresh creds sch = Raise e)) ->
  _refresh_credentials {| tool_context := Some tc; sent := requests |}
  = (Ret (ResultsSuccess JNull),
     {| tool_context := Some {| state := <[TOKEN_CACHE := JNull]> (state tc);
                                requested := requested tc |};
        sent := requests |}).
Proof.
  intros Hconf Hstate Hstored Hvalid Hfail.
  unfold _refresh_credentials, bind, lift, state_get. rewrite Hconf. cbn.
  rewrite Hstate. cbn. apply String.eqb_neq in Hstored. rewrite Hstored. cbn.
  rewrite Hvalid. cbn. unfold try_except, bind, lift.
  destruct Hfail as [Hneeded|[Hneeded Hrefresh]]; rewrite Hneeded; [reflexivity|].
  now rewrite Hrefresh.
Qed.
End Refresh.

(** C8. With the OAuth client configured, no credential under the token
    cache key and no credential granted through the consent capability, the
    refresh step asks for consent and returns pending, leaving the session
    state as it was; in the OAuth branch [_api_call] returns that pending
    outcome. *)
Theorem _refresh_credentials_pending `{Platform} (tc : ToolContext)
    (requests : list Request) (sch : OAuth2) (cr : AuthCredential) :
  _get_auth_sheme_and_credential = Ret (sch, cr) ->
  truthy (default JNull (state tc !! TOKEN_CACHE)) = false ->
  get_auth_response tc {| auth_scheme := sch; raw_auth_credential := cr |} = None ->
  let w := {| tool_context := Some tc; sent := requests |} in
  let w' := {| tool_context :=
                 Some {| state := state tc;
                         requested :=
                           (requested tc
                            ++ [{| auth_scheme := sch; raw_auth_credential := cr |}])%list |};
               sent := requests |} in
  _refresh_credentials w = (Ret ResultsPending, w')
  /\ (select_strategy w = (Ret ManagedOAuth, w) ->
      has_context w = true ->
      forall endpoint method path json_data params,
        _api_call endpoint method path json_data params w = (Ret ResultsPending, w')).
Proof.
  intros Hconf Hnone Hgrant w w'.
  assert (Hrefresh : _refresh_credentials w = (Ret ResultsPending, w')).
  { unfold _refresh_credentials, bind, lift, state_get. rewrite Hconf. cbn.
    rewrite Hnone. cbn. unfold tool_context_get_auth_response. cbn.
    now rewrite Hgrant. }
  split; [exact Hrefresh|].
  intros Hsel Hctx endpoint method path json_data params.
  now apply _api_call_refresh_not_success.
Qed.

Lemma _refresh_credentials_pending_witness :
  exists config,
    _refresh_credentials (H := oauth_fresh) (session ∅)
    = (Ret ResultsPending,
       {| tool_context := Some {| state := ∅; requested := [config] |}; sent := [] |})
    /\ _api_call (H := oauth_fresh) "https://api.atlassian.com" "GET"
         "/oauth/token/accessible-resources" None None (session ∅)
       = (Ret ResultsPending,
          {| tool_context := Some {| state := ∅; requested := [config] |}; sent := [] |}).
Proof.
  eexists.
  pose proof (_refresh_credentials_pending (H := oauth_fresh)
                {| state := ∅; requested := [] |} [] _ _ eq_refl eq_refl eq_refl) as [Hr Hc].
  split; [exact Hr|]. apply Hc; reflexivity.
Defined.

(** C1. With a stored credential that needs a refresh and a refresher that
    fails, the refresh step clears the stored credential but returns a
    success, and [_api_call] then ends in a [ValidationError] raised on the
    cleared entry instead of returning an error. *)
Theorem refresh_failure_is_not_reported :
  _refresh_credentials (H := oauth_revoked) (session {[TOKEN_CACHE := JStr "stored"]})
  = (Ret (ResultsSuccess JNull), session {[TOKEN_CACHE := JNull]})
  /\ _api_call (H := oauth_revoked) "https://api.atlassian.com" "GET"
       "/oauth/token/accessible-resources" None None
       (session {[TOKEN_CACHE := JStr "stored"]})
     = (Raise ValidationError, session {[TOKEN_CACHE := JNull]})
  /\ state_get TOKEN_CACHE (session {[TOKEN_CACHE := JNull]})
     = (Ret JNull, session {[TOKEN_CACHE := JNull]}).
Proof. repeat split; vm_compute; reflexivity. Qed.

(** ** The call executor *)

(** C2. Once [_api_call] has its credentials, a response whose status is
    not 2xx is returned as an error whose message is made of the endpoint
    and of the text of the status error. *)
Theorem _api_call_status_error `{Platform} (endpoint method path : string)
    (json_data params : option json) (w w1 : World)
    (auth : option BasicAuth) (headers : list (string * json)) (resp : Response) :
  let req := {| req_method := method; req_url := endpoint +:+ path;
                req_headers := headers; req_params := params;
                req_json := json_data; req_auth := auth; req_timeout := 30 |} in
  resolve_auth w = (Ret (Proceed auth headers), w1) ->
  http_request (sent w1) req = Ret resp ->
  is_2xx resp = false ->
  _api_call endpoint method path json_data params w
  = (Ret (ResultsError ("An error occurred while calling Jira API endpoint "
                        +:+ endpoint +:+ ": " +:+ str_HTTPStatusError req resp)),
     logged w1 req).
Proof.
  intros req Hauth Hresp Hstatus.
  unfold _api_call, bind. rewrite Hauth. fold req.
  unfold try_except, bind, client_request. rewrite Hresp.
  unfold raise_for_status. now rewrite Hstatus.
Qed.

Lemma _api_call_status_error_witness :
  exists w,
    _api_call (H := pat_404) "https://a.example" "GET" "/rest/api/3/issue/NONE-1"
      None None no_context
    = (Ret (ResultsError
              ("An error occurred while calling Jira API endpoint https://a.example"
               +:+ ": Client error for url 'https://a.example/rest/api/3/issue/NONE-1'")),
       w).
Proof.
  eexists.
  refine (_api_call_status_error (H := pat_404) "https://a.example" "GET"
            "/rest/api/3/issue/NONE-1" None None no_context no_context
            (Some {| username := "user"; password := "pat" |}) default_headers
            {| status_code := 404; body := BodyJson (JObj [("errorMessages", JArr [])]) |}
            _ _ _).
  - vm_compute. reflexivity.
  - reflexivity.
  - reflexivity.
Defined.

(** C2, as stated, fails: the error for a status 404 on a [GET] does not
    carry the method, and a transport failure leaves [_api_call] as a raised
    exception. *)
Lemma _api_call_omits_method_and_raises_on_transport_failure :
  (exists message w,
     _api_call (H := pat_404) "https://a.example" "GET" "/rest/api/3/issue/NONE-1"
       None None no_context
     = (Ret (ResultsError message), w)
     /\ contains "GET" message = false)
  /\
  (exists w,
     _api_call (H := pat_down) "https://a.example" "GET" "/rest/api/3/issue/NONE-1"
       None None no_context
     = (Raise (TransportError "connection refused"), w)).
Proof.
  split.
  - eexists _, _. split; vm_compute; reflexivity.
  - eexists. vm_compute. reflexivity.
Qed.

(** * Further properties *)

(** ** Results *)

(** X1. The function [is_success] and the method [is_success] agree, and
    both hold exactly of a [ResultsSuccess]. *)
Theorem is_success_by_tag (r : ResultsDict) :
  is_success r = is_success_method r
  /\ (is_success r = true <-> exists data, r = ResultsSuccess data).
Proof.
  destruct r as [|message|data]; cbn; (split; [reflexivity|]); split;
    try discriminate; eauto; intros [? Hr]; discriminate.
Qed.

(** ** The OAuth client configuration *)

(** X2. [_get_auth_sheme_and_credential] returns when the five OAuth client
    variables are all set and not empty: the scheme then refreshes at the
    token endpoint and the credential holds the client id and secret but no
    token. With any of the five missing or empty it raises a [ValueError]. *)
Theorem _get_auth_sheme_and_credential_configured `{Platform} :
  let configured name := str_truthy (os_getenv name) in
  (configured "ADK_OAUTH_CLIENT_ID" && configured "ADK_OAUTH_CLIENT_SECRET"
   && configured "ADK_OAUTH_AUTH_URI" && configured "ADK_OAUTH_TOKEN_URI"
   && configured "ADK_OAUTH_SCOPES" = true ->
   exists sch cr,
     _get_auth_sheme_and_credential = Ret (sch, cr)
     /\ Some (authorizationUrl sch) = os_getenv "ADK_OAUTH_AUTH_URI"
     /\ Some (tokenUrl sch) = os_getenv "ADK_OAUTH_TOKEN_URI"
     /\ refreshUrl sch = tokenUrl sch
     /\ oauth2 cr = Some {| client_id := os_getenv "ADK_OAUTH_CLIENT_ID";
                            client_secret := os_getenv "ADK_OAUTH_CLIENT_SECRET";
                            audience := os_getenv "ADK_OAUTH_AUDIENCE";
                            access_token := None;
                            refresh_token := None |})
  /\
  (configured "ADK_OAUTH_CLIENT_ID" && configured "ADK_OAUTH_CLIENT_SECRET"
   && configured "ADK_OAUTH_AUTH_URI" && configured "ADK_OAUTH_TOKEN_URI"
   && configured "ADK_OAUTH_SCOPES" = false ->
   exists msg, _get_auth_sheme_and_credential = Raise (ValueError msg)).
Proof.
  intros configured. subst configured. unfold _get_auth_sheme_and_credential.
  destruct (os_getenv "ADK_OAUTH_CLIENT_ID") as [id|];
    destruct (os_getenv "ADK_OAUTH_CLIENT_SECRET") as [secret|];
    destruct (os_getenv "ADK_OAUTH_AUTH_URI") as [auth_uri|];
    destruct (os_getenv "ADK_OAUTH_TOKEN_URI") as [token_uri|];
    destruct (os_getenv "ADK_OAUTH_SCOPES") as [scopes|];
    cbn [str_truthy];
    repeat match goal with
           | |- context [String.eqb ?s EmptyString] => destruct (String.eqb s EmptyString)
           end;
    cbn; split; intros Hc; try discriminate; eauto 10.
Qed.

Lemma _get_auth_sheme_and_credential_configured_witness :
  (exists sch cr,
     _get_auth_sheme_and_credential (H := oauth_fresh) = Ret (sch, cr)
     /\ tokenUrl sch = "https://auth.example/token"
     /\ refreshUrl sch = "https://auth.example/token")
  /\ (exists msg, _get_auth_sheme_and_credential (H := pat_240) = Raise (ValueError msg)).
Proof.
  split.
  - destruct (proj1 (_get_auth_sheme_and_credential_configured (H := oauth_fresh)) eq_refl)
      as (sch & cr & Hret & _ & Htoken & Hrefresh & _).
    exists sch, cr. split; [exact Hret|].
    assert (Ht : tokenUrl sch = "https://auth.example/token").
    { change (Some (tokenUrl sch) = Some "https://auth.example/token") in Htoken.
      now injection Htoken. }
    split; [exact Ht | now rewrite Hrefresh].
  - exact (proj2 (_get_auth_sheme_and_credential_configured (H := pat_240)) eq_refl).
Defined.

(** Reading back what [assoc_set] wrote. *)
Lemma assoc_get_set_eq k v d : assoc_get k (assoc_set k v d) = Some v.
Proof.
  induction d as [|[k' v'] d IH]; cbn.
  - now rewrite String.eqb_refl.
  - destruct (String.eqb k k') eqn:E; cbn; rewrite ?String.eqb_refl, ?E; auto.
Qed.

Lemma assoc_get_set_ne k k' v d :
  k <> k' -> assoc_get k' (assoc_set k v d) = assoc_get k' d.
Proof.
  intros Hne. induction d as [|[k0 v0] d IH]; cbn.
  - apply not_eq_sym, String.eqb_neq in Hne. now rewrite Hne.
  - destruct (String.eqb k k0) eqn:E; cbn.
    + apply String.eqb_eq in E. subst k0.
      apply not_eq_sym, String.eqb_neq in Hne. now rewrite Hne.
    + destruct (String.eqb k' k0); auto.
Qed.

(** A dictionary built by giving each key of [keys] the value [f] makes of
    it holds [f k] for every such key. *)
Lemma foldl_assoc_set_described (f : string -> json) (keys : list string) :
  forall d k,
    In k keys \/ assoc_get k d = Some (f k) ->
    assoc_get k (foldl (fun d s => assoc_set s (f s) d) d keys) = Some (f k).
Proof.
  induction keys as [|a keys IH]; intros d k Hk; cbn.
  - destruct Hk as [[]|Hk]; exact Hk.
  - apply IH. destruct (String.eqb a k) eqn:E.
    + apply String.eqb_eq in E. subst a. right. apply assoc_get_set_eq.
    + apply String.eqb_neq in E. destruct Hk as [[Hk|Hk]|Hk].
      * contradiction.
      * now left.
      * right. now rewrite assoc_get_set_ne.
Qed.

(** X3. Every scope named in [ADK_OAUTH_SCOPES], the pieces between single
    spaces, is a key of the scheme's scopes, described as
    [Access to <scope>]. *)
Theorem _get_auth_sheme_and_credential_scopes `{Platform}
    (sch : OAuth2) (cr : AuthCredential) (scope : string) :
  _get_auth_sheme_and_credential = Ret (sch, cr) ->
  In scope (split_space (default EmptyString (os_getenv "ADK_OAUTH_SCOPES")) EmptyString) ->
  assoc_get scope (scopes sch) = Some (JStr ("Access to " +:+ scope)).
Proof.
  unfold _get_auth_sheme_and_credential. intros Hret Hin.
  destruct (negb (str_truthy (os_getenv "ADK_OAUTH_CLIENT_SECRET"))
            || negb (str_truthy (os_getenv "ADK_OAUTH_CLIENT_ID"))); [discriminate|].
  destruct (negb (str_truthy (os_getenv "ADK_OAUTH_AUTH_URI"))
            || negb (str_truthy (os_getenv "ADK_OAUTH_TOKEN_URI"))
            || negb (str_truthy (os_getenv "ADK_OAUTH_SCOPES"))); [discriminate|].
  injection Hret as <- _. cbn [scopes].
  apply (foldl_assoc_set_described (fun s => JStr ("Access to " +:+ s))). now left.
Qed.

Lemma _get_auth_sheme_and_credential_scopes_witness :
  exists sch cr,
    _get_auth_sheme_and_credential (H := oauth_fresh) = Ret (sch, cr)
    /\ assoc_get "read:jira-work" (scopes sch) = Some (JStr "Access to read:jira-work").
Proof.
  eexists _, _. split; [reflexivity|].
  apply (_get_auth_sheme_and_credential_scopes (H := oauth_fresh) _ _ "read:jira-work"
           eq_refl).
  vm_compute. right. left. reflexivity.
Defined.

(** ** More of the refresh step *)

Section RefreshPaths.
Context `{Platform}.

(** The refresh step up to the point where the stored credential has been
    read and parsed. *)
Lemma _refresh_credentials_stored tc requests sch cr stored creds :
  _get_auth_sheme_and_credential = Ret (sch, cr) ->
  state tc !! TOKEN_CACHE = Some (JStr stored) -> stored <> EmptyString ->
  validate_json stored = Some creds ->
  _refresh_credentials {| tool_context := Some tc; sent := requests |}
  = (try_except
       (needed <- lift (is_refresh_needed creds sch) ;;
        if needed then
          fresh <- lift (refresh creds sch) ;;
          state_set TOKEN_CACHE (JStr (model_dump_json fresh))
        else ret tt)
       (fun _ => state_set TOKEN_CACHE JNull) ;;;
     ret (ResultsSuccess JNull)) {| tool_context := Some tc; sent := requests |}.
Proof.
  intros Hconf Hstate Hstored Hvalid.
  unfold _refresh_credentials, bind, lift, state_get. rewrite Hconf. cbn.
  rewrite Hstate. cbn. apply String.eqb_neq in Hstored. rewrite Hstored. cbn.
  rewrite Hvalid. reflexivity.
Qed.
End RefreshPaths.

(** A stored credential that needs no refresh: nothing changes. *)
Lemma _refresh_credentials_not_needed `{Platform} tc requests sch cr stored creds :
  _get_auth_sheme_and_credential = Ret (sch, cr) ->
  state tc !! TOKEN_CACHE = Some (JStr stored) -> stored <> EmptyString ->
  validate_json stored = Some creds ->
  is_refresh_needed creds sch = Ret false ->
  _refresh_credentials {| tool_context := Some tc; sent := requests |}
  = (Ret (ResultsSuccess JNull), {| tool_context := Some tc; sent := requests |}).
Proof.
  intros Hconf Hstate Hstored Hvalid Hneeded.
  rewrite (_refresh_credentials_stored _ _ _ _ _ _ Hconf Hstate Hstored Hvalid).
  unfold bind, try_except, lift. now rewrite Hneeded.
Qed.

(** X4. A stored credential that needs no refresh is kept: the refresh step
    returns a success and leaves the world as it was. *)
Theorem _refresh_credentials_fresh `{Platform} (tc : ToolContext)
    (requests : list Request) (sch : OAuth2) (cr : AuthCredential)
    (stored : string) (creds : AuthCredential) :
  _get_auth_sheme_and_credential = Ret (sch, cr) ->
  state tc !! TOKEN_CACHE = Some (JStr stored) -> stored <> EmptyString ->
  validate_json stored = Some creds ->
  is_refresh_needed creds sch = Ret false ->
  let w := {| tool_context := Some tc; sent := requests |} in
  _refresh_credentials w = (Ret (ResultsSuccess JNull), w).
Proof.
  intros Hconf Hstate Hstored Hvalid Hneeded w.
  exact (_refresh_credentials_not_needed tc requests sch cr stored creds
           Hconf Hstate Hstored Hvalid Hneeded).
Qed.

Lemma _refresh_credentials_fresh_witness :
  _refresh_credentials (H := oauth_fresh) (session {[TOKEN_CACHE := JStr "stored"]})
  = (Ret (ResultsSuccess JNull), session {[TOKEN_CACHE := JStr "stored"]}).
Proof.
  refine (_refresh_credentials_fresh (H := oauth_fresh)
            {| state := {[TOKEN_CACHE := JStr "stored"]}; requested := [] |} []
            _ _ "stored" (mock_cred (Some "access-1")) eq_refl _ _ eq_refl eq_refl).
  - vm_compute. reflexivity.
  - discriminate.
Defined.

(** X5. A stored credential that needs a refresh and gets one is replaced
    in the session by the serialized new credential, and the refresh step
    returns a success. *)
Theorem _refresh_credentials_refreshed `{Platform} (tc : ToolContext)
    (requests : list Request) (sch : OAuth2) (cr : AuthCredential)
    (stored : string) (creds fresh : AuthCredential) :
  _get_auth_sheme_and_credential = Ret (sch, cr) ->
  state tc !! TOKEN_CACHE = Some (JStr stored) -> stored <> EmptyString ->
  validate_json stored = Some creds ->
  is_refresh_needed creds sch = Ret true ->
  refresh creds sch = Ret fresh ->
  _refresh_credentials {| tool_context := Some tc; sent := requests |}
  = (Ret (ResultsSuccess JNull),
     {| tool_context :=
          Some {| state := <[TOKEN_CACHE := JStr (model_dump_json fresh)]> (state tc);
                  requested := requested tc |};
        sent := requests |}).
Proof.
  intros Hconf Hstate Hstored Hvalid Hneeded Hfresh.
  rewrite (_refresh_credentials_stored _ _ _ _ _ _ Hconf Hstate Hstored Hvalid).
  unfold bind, try_except, lift. now rewrite Hneeded, Hfresh.
Qed.

Lemma _refresh_credentials_refreshed_witness :
  exists w',
    _refresh_credentials (H := oauth_refreshing) (session {[TOKEN_CACHE := JStr "stored"]})
    = (Ret (ResultsSuccess JNull), w')
    /\ state_get TOKEN_CACHE w' = (Ret (JStr "stored"), w').
Proof.
  eexists. split.
  - refine (_refresh_credentials_refreshed (H := oauth_refreshing)
              {| state := {[TOKEN_CACHE := JStr "stored"]}; requested := [] |} []
              _ _ "stored" (mock_cred (Some "access-1")) (mock_cred (Some "access-2"))
              eq_refl _ _ eq_refl eq_refl eq_refl).
    + vm_compute. reflexivity.
    + discriminate.
  - vm_compute. reflexivity.
Defined.

(** X6. Without a stored credential, a credential granted through the
    consent capability is serialized into the session under the token cache
    key; the refresh step returns a success and asks for no consent. *)
Theorem _refresh_credentials_granted `{Platform} (tc : ToolContext)
    (requests : list Request) (sch : OAuth2) (cr granted : AuthCredential) :
  _get_auth_sheme_and_credential = Ret (sch, cr) ->
  truthy (default JNull (state tc !! TOKEN_CACHE)) = false ->
  get_auth_response tc {| auth_scheme := sch; raw_auth_credential := cr |} = Some granted ->
  _refresh_credentials {| tool_context := Some tc; sent := requests |}
  = (Ret (ResultsSuccess JNull),
     {| tool_context :=
          Some {| state := <[TOKEN_CACHE := JStr (model_dump_json granted)]> (state tc);
                  requested := requested tc |};
        sent := requests |}).
Proof.
  intros Hconf Hnone Hgrant.
  unfold _refresh_credentials, bind, lift, state_get. rewrite Hconf. cbn.
  rewrite Hnone. cbn. unfold tool_context_get_auth_response. cbn.
  now rewrite Hgrant.
Qed.

Lemma _refresh_credentials_granted_witness :
  _refresh_credentials (H := oauth_granted) (session ∅)
  = (Ret (ResultsSuccess JNull), session {[TOKEN_CACHE := JStr "stored"]}).
Proof.
  refine (_refresh_credentials_granted (H := oauth_granted)
            {| state := ∅; requested := [] |} [] _ _ (mock_cred (Some "access-1"))
            eq_refl eq_refl eq_refl).
Defined.

(** X7. The refresh step never returns an error: whenever it returns, the
    result is the empty success or pending. *)
Theorem _refresh_credentials_never_error `{Platform} (w w' : World) (r : ResultsDict) :
  _refresh_credentials w = (Ret r, w') ->
  r = ResultsSuccess JNull \/ r = ResultsPending.
Proof.
  unfold _refresh_credentials, bind, lift, try_except, state_get, state_set,
    request_credential, tool_context_get_auth_response, model_validate_json, ret, raise.
  intros Hrun.
  repeat match type of Hrun with
         | context [match ?x with _ => _ end] => destruct x eqn:?
         | context [if ?x then _ else _] => destruct x eqn:?
         end;
    first [discriminate | injection Hrun as <- _; auto].
Qed.

Lemma _refresh_credentials_never_error_witness :
  exists w',
    _refresh_credentials (H := oauth_fresh) (session ∅) = (Ret ResultsPending, w')
    /\ (ResultsPending = ResultsSuccess JNull \/ ResultsPending = ResultsPending).
Proof.
  eexists. split; [vm_compute; reflexivity|].
  eapply (_refresh_credentials_never_error (H := oauth_fresh) (session ∅)).
  vm_compute. reflexivity.
Defined.

(** ** More of the call executor *)

Section Frame.
Context `{Platform} (R : World -> World -> Prop).
Hypothesis R_refl : forall w, R w w.
Hypothesis R_trans : forall a b c, R a b -> R b c -> R a c.
Hypothesis R_token : forall w v, R w (snd (state_set TOKEN_CACHE v w)).
Hypothesis R_consent : forall w config, R w (snd (request_credential config w)).

Lemma preserves_ret {A} (a : A) : preserves R (ret a).
Proof. intros w. apply R_refl. Qed.

Lemma preserves_raise {A} (e : exn) : preserves R (raise (A := A) e).
Proof. intros w. apply R_refl. Qed.

Lemma preserves_lift {A} (r : py A) : preserves R (lift r).
Proof. intros w. apply R_refl. Qed.

Lemma preserves_bind {A B} (m : M A) (f : A -> M B) :
  preserves R m -> (forall a, preserves R (f a)) -> preserves R (bind m f).
Proof.
  intros Hm Hf w. unfold bind. specialize (Hm w).
  destruct (m w) as [[a|e] w1]; cbn in *; [|exact Hm].
  exact (R_trans _ _ _ Hm (Hf a w1)).
Qed.

Lemma preserves_try_except {A} (m : M A) (handler : exn -> M A) :
  preserves R m -> (forall e, preserves R (handler e)) -> preserves R (try_except m handler).
Proof.
  intros Hm Hh w. unfold try_except. specialize (Hm w).
  destruct (m w) as [[a|e] w1]; cbn in *; [exact Hm|].
  exact (R_trans _ _ _ Hm (Hh e w1)).
Qed.

Lemma preserves_state_get key : preserves R (state_get key).
Proof. intros w. unfold state_get. destruct (tool_context w); apply R_refl. Qed.

Lemma preserves_state_getitem key : preserves R (state_getitem key).
Proof.
  intros w. unfold state_getitem. destruct (tool_context w) as [tc|]; [|apply R_refl].
  destruct (state tc !! key); apply R_refl.
Qed.

Lemma preserves_model_validate_json v : preserves R (model_validate_json v).
Proof.
  unfold model_validate_json. destruct v; try apply preserves_raise.
  destruct (validate_json s); [apply preserves_ret | apply preserves_raise].
Qed.

Lemma preserves__refresh_credentials : preserves R _refresh_credentials.
Proof.
  unfold _refresh_credentials.
  apply preserves_bind; [apply preserves_lift|]. intros sc.
  apply preserves_bind; [apply preserves_state_get|]. intros auth_cred.
  apply preserves_bind.
  - destruct (truthy auth_cred); [|apply preserves_ret].
    apply preserves_bind; [apply preserves_model_validate_json | intros; apply preserves_ret].
  - intros [creds|].
    + apply preserves_bind; [|intros; apply preserves_ret].
      apply preserves_try_except; [|intros e w; apply R_token].
      apply preserves_bind; [apply preserves_lift|]. intros [|]; [|apply preserves_ret].
      apply preserves_bind; [apply preserves_lift | intros fresh w; apply R_token].
    + apply preserves_bind.
      * intros w. unfold tool_context_get_auth_response.
        destruct (tool_context w); apply R_refl.
      * intros [granted|]; (apply preserves_bind; [|intros; apply preserves_ret]);
          [intros w; apply R_token | intros w; apply R_consent].
Qed.

Lemma preserves_select_strategy : preserves R select_strategy.
Proof.
  unfold select_strategy. apply preserves_bind.
  - intros w. unfold delegated_token.
    destruct (str_truthy (os_getenv "AGENTSPACE_AUTH_ID") && has_context w);
      [apply preserves_state_get | apply R_refl].
  - intros token. destruct (truthy token); [apply preserves_ret|].
    destruct (str_truthy (os_getenv "JIRA_USERNAME")
              && str_truthy (os_getenv "JIRA_API_TOKEN")); apply preserves_ret.
Qed.

Lemma preserves_oauth_headers headers : preserves R (oauth_headers headers).
Proof.
  intros w. unfold oauth_headers. destruct (negb (has_context w)); [apply R_refl|].
  revert w. apply preserves_bind; [apply preserves__refresh_credentials|]. intros r.
  destruct (negb (is_success r)); [apply preserves_ret|].
  apply preserves_bind; [apply preserves_state_get|]. intros stored.
  apply preserves_bind; [apply preserves_model_validate_json|]. intros creds.
  destruct (oauth2 creds) as [o|]; [|apply preserves_ret].
  destruct (str_truthy (access_token o)); apply preserves_ret.
Qed.

Lemma preserves_resolve_auth : preserves R resolve_auth.
Proof.
  unfold resolve_auth. apply preserves_bind; [apply preserves_select_strategy|].
  intros [token|auth|];
    [apply preserves_ret | apply preserves_ret | apply preserves_oauth_headers].
Qed.

Section Requests.
Hypothesis R_logged : forall w req, R w (logged w req).

Lemma preserves__api_call endpoint method path json_data params :
  preserves R (_api_call endpoint method path json_data params).
Proof.
  unfold _api_call. apply preserves_bind; [apply preserves_resolve_auth|].
  intros [auth headers|r]; [|apply preserves_ret].
  apply preserves_try_except.
  - apply preserves_bind; [intros w; apply R_logged|]. intros response.
    apply preserves_bind.
    + unfold raise_for_status.
      destruct (is_2xx response); [apply preserves_ret | apply preserves_raise].
    + intros _. apply preserves_bind; [|intros; apply preserves_ret].
      unfold response_payload.
      destruct (body response); [apply preserves_ret | apply preserves_ret | apply preserves_raise].
  - intros e. destruct e; try apply preserves_raise. apply preserves_ret.
Qed.

Hypothesis R_cache : forall w v, R w (snd (state_set JIRA_INSTANCE_CACHE v w)).

Lemma preserves_auth_list_jira_instances : preserves R auth_list_jira_instances.
Proof.
  unfold auth_list_jira_instances.
  destruct (str_truthy (os_getenv "JIRA_INSTANCE")); [apply preserves_ret|].
  intros w. destruct (negb (has_context w)); [apply R_refl|]. revert w.
  apply preserves_bind; [apply preserves_state_get|]. intros cached.
  apply preserves_bind.
  - destruct (negb (truthy cached)); [|apply preserves_ret].
    apply preserves_bind; [apply preserves__api_call|]. intros r.
    destruct (negb (is_success r)); [apply preserves_ret|].
    apply preserves_bind; [apply preserves_lift|]. intros data.
    apply preserves_bind; [apply preserves_lift|]. intros items.
    apply preserves_bind; [apply preserves_lift|]. intros cache.
    apply preserves_bind; [intros w; apply R_cache | intros; apply preserves_ret].
  - intros [r|]; [apply preserves_ret|].
    apply preserves_bind; [apply preserves_state_getitem | intros; apply preserves_ret].
Qed.

Lemma preserves_jira_api_call inst method path json_data params :
  preserves R (jira_api_call inst method path json_data params).
Proof.
  unfold jira_api_call.
  apply preserves_bind; [apply preserves_auth_list_jira_instances|]. intros r.
  destruct (negb (is_success r)); [apply preserves_ret|].
  apply preserves_bind; [apply preserves_lift|]. intros data.
  apply preserves_bind; [apply preserves_lift|]. intros known.
  destruct (negb known); [apply preserves_ret|].
  apply preserves_bind; [apply preserves_lift|]. intros entry.
  apply preserves_bind; [apply preserves_lift|]. intros instance_id.
  apply preserves__api_call.
Qed.
End Requests.
End Frame.

Section Executor.
Context `{Platform}.

Lemma quiet_resolve_auth : preserves same_requests resolve_auth.
Proof.
  apply preserves_resolve_auth; unfold same_requests.
  - reflexivity.
  - intros a b c Hab Hbc. congruence.
  - intros w v. unfold state_set. now destruct (tool_context w).
  - intros w config. unfold request_credential. now destruct (tool_context w).
Qed.

(** Once the credentials are there, [_api_call] attempts the request and
    the answer alone decides the outcome. *)
Lemma _api_call_resolved endpoint method path json_data params w w1 auth headers :
  resolve_auth w = (Ret (Proceed auth headers), w1) ->
  let req := api_request endpoint method path json_data params auth headers in
  _api_call endpoint method path json_data params w
  = (response_outcome endpoint req (http_request (sent w1) req), logged w1 req).
Proof.
  intros Hauth req. unfold _api_call, bind. rewrite Hauth. fold (api_request endpoint method path json_data params auth headers). fold req.
  unfold try_except, bind, client_request, response_outcome, raise_for_status.
  destruct (http_request (sent w1) req) as [resp|e]; cbn.
  - destruct (is_2xx resp); cbn; [|reflexivity].
    unfold response_payload. now destruct (body resp).
  - now destruct e.
Qed.

Lemma _api_call_returned endpoint method path json_data params w w1 r :
  resolve_auth w = (Ret (Return r), w1) ->
  _api_call endpoint method path json_data params w = (Ret r, w1).
Proof. intros Hauth. unfold _api_call, bind. now rewrite Hauth. Qed.

Lemma resolve_auth_selected w strategy :
  select_strategy w = (Ret strategy, w) ->
  resolve_auth w =
    match strategy with
    | Delegated token => (Ret (Proceed None (bearer (py_str token) default_headers)), w)
    | StaticPAT auth => (Ret (Proceed (Some auth) default_headers), w)
    | ManagedOAuth => oauth_headers default_headers w
    end.
Proof.
  intros Hsel. unfold resolve_auth, bind. rewrite Hsel. now destruct strategy.
Qed.
End Executor.

(** X8. [_api_call] never retries: it attempts at most one HTTP request,
    and that one goes to endpoint plus path with the method, query
    parameters and JSON body it was given and a timeout of 30 seconds. *)
Theorem _api_call_at_most_one_request `{Platform} (endpoint method path : string)
    (json_data params : option json) (w : World) :
  sent (snd (_api_call endpoint method path json_data params w)) = sent w
  \/ exists auth headers,
       sent (snd (_api_call endpoint method path json_data params w))
       = (sent w ++ [api_request endpoint method path json_data params auth headers])%list.
Proof.
  pose proof (quiet_resolve_auth w) as Hq. unfold same_requests in Hq.
  destruct (resolve_auth w) as [[[auth headers|r]|e] w1] eqn:Hauth; cbn in Hq.
  - right. exists auth, headers.
    rewrite (_api_call_resolved _ _ _ _ _ _ _ _ _ Hauth). cbn. now rewrite Hq.
  - left. now rewrite (_api_call_returned _ _ _ _ _ _ _ _ Hauth).
  - left. unfold _api_call, bind. now rewrite Hauth.
Qed.

(** X9. Without a usable session and without both PAT variables,
    [_api_call] returns the error [no tool_context when running in OAuth
    mode] and attempts no request. *)
Theorem _api_call_without_session `{Platform} (endpoint method path : string)
    (json_data params : option json) (w : World) :
  has_context w = false ->
  str_truthy (os_getenv "JIRA_USERNAME") && str_truthy (os_getenv "JIRA_API_TOKEN") = false ->
  _api_call endpoint method path json_data params w
  = (Ret (ResultsError "no tool_context when running in OAuth mode"), w).
Proof.
  intros Hctx Hpat. apply _api_call_returned.
  unfold resolve_auth, select_strategy, delegated_token, bind.
  rewrite Hctx, andb_false_r. cbn. rewrite Hpat. cbn.
  unfold oauth_headers. now rewrite Hctx.
Qed.

Lemma _api_call_without_session_witness :
  _api_call (H := oauth_fresh) "https://a.example" "GET" "/rest/api/3/serverInfo"
    None None no_context
  = (Ret (ResultsError "no tool_context when running in OAuth mode"), no_context).
Proof.
  apply (_api_call_without_session (H := oauth_fresh)); reflexivity.
Defined.

(** X10. Once [_api_call] has its credentials, a 2xx response with a JSON
    body is a success holding the decoded body, one with an empty body is
    a success holding the empty dictionary, and one whose body is not JSON
    leaves the call with the decoder's exception. *)
Theorem _api_call_2xx `{Platform} (endpoint method path : string)
    (json_data params : option json) (w w1 : World)
    (auth : option BasicAuth) (headers : list (string * json)) (resp : Response) :
  let req := api_request endpoint method path json_data params auth headers in
  resolve_auth w = (Ret (Proceed auth headers), w1) ->
  http_request (sent w1) req = Ret resp ->
  is_2xx resp = true ->
  _api_call endpoint method path json_data params w
  = (match body resp with
     | BodyEmpty => Ret (ResultsSuccess (JObj []))
     | BodyJson j => Ret (ResultsSuccess j)
     | BodyMalformed => Raise JSONDecodeError
     end, logged w1 req).
Proof.
  intros req Hauth Hresp Hstatus.
  rewrite (_api_call_resolved _ _ _ _ _ _ _ _ _ Hauth). fold req.
  unfold response_outcome. now rewrite Hresp, Hstatus.
Qed.

Lemma _api_call_2xx_witness :
  exists w,
    _api_call (H := pat_foo) "https://a.example" "GET" "/rest/api/3/serverInfo"
      None None no_context
    = (Ret (ResultsSuccess (JObj [("foo", JNum 1)])), w).
Proof.
  eexists.
  refine (_api_call_2xx (H := pat_foo) "https://a.example" "GET" "/rest/api/3/serverInfo"
            None None no_context no_context
            (Some {| username := "user"; password := "pat" |}) default_headers
            {| status_code := 200; body := BodyJson (JObj [("foo", JNum 1)]) |} _ _ _).
  - vm_compute. reflexivity.
  - reflexivity.
  - reflexivity.
Defined.

(** X11. With a PAT selected, [_api_call] sends its one request with HTTP
    Basic credentials and no [Authorization] header; with a delegated token
    selected, it sends it with [Authorization: Bearer <token>] and no Basic
    credentials. In both cases the session is left as it was. *)
Theorem _api_call_static_credentials `{Platform} (endpoint method path : string)
    (json_data params : option json) (w : World) :
  (forall auth,
     select_strategy w = (Ret (StaticPAT auth), w) ->
     let req := api_request endpoint method path json_data params
                  (Some auth) default_headers in
     _api_call endpoint method path json_data params w
     = (response_outcome endpoint req (http_request (sent w) req), logged w req)
     /\ assoc_get "Authorization" (req_headers req) = None)
  /\
  (forall token,
     select_strategy w = (Ret (Delegated token), w) ->
     let req := api_request endpoint method path json_data params
                  None (bearer (py_str token) default_headers) in
     _api_call endpoint method path json_data params w
     = (response_outcome endpoint req (http_request (sent w) req), logged w req)
     /\ assoc_get "Authorization" (req_headers req)
        = Some (JStr ("Bearer " +:+ py_str token))).
Proof.
  split.
  - intros auth Hsel req. split; [|reflexivity].
    apply _api_call_resolved. now rewrite (resolve_auth_selected _ _ Hsel).
  - intros token Hsel req. split; [|reflexivity].
    apply _api_call_resolved. now rewrite (resolve_auth_selected _ _ Hsel).
Qed.

Lemma _api_call_static_credentials_witness :
  (exists w,
     _api_call (H := pat_foo) "https://a.example" "GET" "/rest/api/3/serverInfo"
       None None no_context
     = (Ret (ResultsSuccess (JObj [("foo", JNum 1)])), w)
     /\ tool_context w = None)
  /\
  (exists w,
     _api_call (H := agentspace) "https://a.example" "GET" "/rest/api/3/serverInfo"
       None None (session {["temp:auth1" := JStr "tok"]})
     = (Raise (TransportError "connection refused"), w)
     /\ tool_context w = tool_context (session {["temp:auth1" := JStr "tok"]})).
Proof.
  split.
  - eexists. split.
    + refine (proj1 (proj1 (_api_call_static_credentials (H := pat_foo) "https://a.example"
                              "GET" "/rest/api/3/serverInfo" None None no_context)
                       {| username := "user"; password := "pat" |} _)).
      vm_compute. reflexivity.
    + reflexivity.
  - eexists. split.
    + refine (proj1 (proj2 (_api_call_static_credentials (H := agentspace)
                              "https://a.example" "GET" "/rest/api/3/serverInfo" None None
                              (session {["temp:auth1" := JStr "tok"]}))
                       (JStr "tok") _)).
      vm_compute. reflexivity.
    + reflexivity.
Defined.

(** X12. In the OAuth branch, with a stored credential that needs no
    refresh and holds an access token, [_api_call] sends its one request
    with the header [Authorization: Bearer <access token>] next to the two
    default headers and with no Basic credentials, and leaves the session as
    it was. *)
Theorem _api_call_oauth_bearer `{Platform} (endpoint method path : string)
    (json_data params : option json) (tc : ToolContext) (requests : list Request)
    (sch : OAuth2) (cr : AuthCredential) (stored : string)
    (creds : AuthCredential) (o : OAuth2Auth) (token : string) :
  let w := {| tool_context := Some tc; sent := requests |} in
  let req := api_request endpoint method path json_data params None
               [("Accept", JStr "application/json");
                ("Content-Type", JStr "application/json");
                ("Authorization", JStr ("Bearer " +:+ token))] in
  select_strategy w = (Ret ManagedOAuth, w) ->
  _get_auth_sheme_and_credential = Ret (sch, cr) ->
  state tc !! TOKEN_CACHE = Some (JStr stored) -> stored <> EmptyString ->
  validate_json stored = Some creds ->
  is_refresh_needed creds sch = Ret false ->
  oauth2 creds = Some o -> access_token o = Some token -> token <> EmptyString ->
  _api_call endpoint method path json_data params w
  = (response_outcome endpoint req (http_request requests req), logged w req)
  /\ assoc_get "Authorization" (req_headers req) = Some (JStr ("Bearer " +:+ token))
  /\ req_auth req = None.
Proof.
  intros w req Hsel Hconf Hstate Hstored Hvalid Hneeded Ho Htoken Hne.
  split; [|split; reflexivity].
  assert (Hauth : resolve_auth w = (Ret (Proceed None (bearer token default_headers)), w)).
  { rewrite (resolve_auth_selected _ _ Hsel). unfold oauth_headers.
    assert (Hctx : has_context w = true).
    { cbn. apply state_bool_nonempty. intros Hempty.
      rewrite Hempty, lookup_empty in Hstate. discriminate. }
    rewrite Hctx. cbn [negb]. unfold bind at 1.
    pose proof (_refresh_credentials_not_needed tc requests sch cr stored creds
                  Hconf Hstate Hstored Hvalid Hneeded) as Hfresh.
    fold w in Hfresh. rewrite Hfresh.
    cbn [is_success to_dict assoc_get negb]. cbn.
    unfold bind, state_get. cbn. rewrite Hstate. cbn. rewrite Hvalid. cbn.
    rewrite Ho, Htoken. now rewrite (str_truthy_Some _ Hne). }
  now rewrite (_api_call_resolved _ _ _ _ _ _ _ _ _ Hauth).
Qed.

Lemma _api_call_oauth_bearer_witness :
  exists w,
    _api_call (H := oauth_discovering) "https://api.atlassian.com/ex/jira/1234" "GET"
      "/rest/api/3/serverInfo" None None (session {[TOKEN_CACHE := JStr "stored"]})
    = (Ret (ResultsSuccess (JObj [("foo", JNum 1)])), w)
    /\ map (fun req => assoc_get "Authorization" (req_headers req)) (sent w)
       = [Some (JStr "Bearer access-1")].
Proof.
  eexists. split.
  - refine (proj1 (_api_call_oauth_bearer (H := oauth_discovering)
              "https://api.atlassian.com/ex/jira/1234" "GET" "/rest/api/3/serverInfo"
              None None {| state := {[TOKEN_CACHE := JStr "stored"]}; requested := [] |} []
              _ _ "stored" (mock_cred (Some "access-1")) _ "access-1"
              _ eq_refl _ _ eq_refl eq_refl eq_refl eq_refl _)).
    + vm_compute. reflexivity.
    + vm_compute. reflexivity.
    + discriminate.
    + discriminate.
  - reflexivity.
Defined.

(** X13. Once [_api_call] has its credentials, an exception of the request
    that is not an [HTTPStatusError], such as a connection failure or a
    timeout, is not turned into an error result: the call raises it. *)
Theorem _api_call_raises_transport_failure `{Platform} (endpoint method path : string)
    (json_data params : option json) (w w1 : World)
    (auth : option BasicAuth) (headers : list (string * json)) (e : exn) :
  let req := api_request endpoint method path json_data params auth headers in
  resolve_auth w = (Ret (Proceed auth headers), w1) ->
  http_request (sent w1) req = Raise e ->
  (forall msg, e <> HTTPStatusError msg) ->
  _api_call endpoint method path json_data params w = (Raise e, logged w1 req).
Proof.
  intros req Hauth Hresp He.
  rewrite (_api_call_resolved _ _ _ _ _ _ _ _ _ Hauth). fold req.
  unfold response_outcome. rewrite Hresp.
  destruct e; try reflexivity. now destruct (He msg).
Qed.

Lemma _api_call_raises_transport_failure_witness :
  exists w,
    _api_call (H := pat_down) "https://a.example" "GET" "/rest/api/3/serverInfo"
      None None no_context
    = (Raise (TransportError "connection refused"), w).
Proof.
  eexists.
  refine (_api_call_raises_transport_failure (H := pat_down) "https://a.example" "GET"
            "/rest/api/3/serverInfo" None None no_context no_context
            (Some {| username := "user"; password := "pat" |}) default_headers
            (TransportError "connection refused") _ _ _).
  - vm_compute. reflexivity.
  - reflexivity.
  - discriminate.
Defined.

(** ** What is written to the session *)

Lemma same_session_but_refl written w : same_session_but written w w.
Proof. split; [tauto | reflexivity]. Qed.

Lemma same_session_but_trans written a b c :
  same_session_but written a b -> same_session_but written b c ->
  same_session_but written a c.
Proof.
  intros [Hab Kab] [Hbc Kbc]. split; [tauto|].
  intros key Hkey. now rewrite (Kbc key Hkey), (Kab key Hkey).
Qed.

Lemma same_session_but_state_set written key v w :
  In key written -> same_session_but written w (snd (state_set key v w)).
Proof.
  intros Hin. unfold state_set, same_session_but, session_key.
  destruct (tool_context w) as [tc|] eqn:Htc; cbn; rewrite ?Htc; [|tauto].
  split; [split; discriminate|]. intros key' Hkey'.
  apply lookup_insert_ne. intros ->. contradiction.
Qed.

Lemma same_session_but_request_credential written config w :
  same_session_but written w (snd (request_credential config w)).
Proof.
  unfold request_credential, same_session_but, session_key.
  destruct (tool_context w) as [tc|] eqn:Htc; cbn; rewrite ?Htc; [|tauto].
  split; [split; discriminate | reflexivity].
Qed.

Lemma same_session_but_logged written w req : same_session_but written w (logged w req).
Proof. split; [reflexivity | reflexivity]. Qed.

Section Written.
Context `{Platform}.

Lemma _api_call_writes_token_only endpoint method path json_data params :
  preserves (same_session_but [TOKEN_CACHE])
    (_api_call endpoint method path json_data params).
Proof.
  apply preserves__api_call.
  - apply same_session_but_refl.
  - apply same_session_but_trans.
  - intros w v. apply same_session_but_state_set. now left.
  - intros w config. apply same_session_but_request_credential.
  - apply same_session_but_logged.
Qed.

Lemma jira_api_call_writes_caches_only inst method path json_data params :
  preserves (same_session_but [TOKEN_CACHE; JIRA_INSTANCE_CACHE])
    (jira_api_call inst method path json_data params).
Proof.
  apply preserves_jira_api_call.
  - apply same_session_but_refl.
  - apply same_session_but_trans.
  - intros w v. apply same_session_but_state_set. now left.
  - intros w config. apply same_session_but_request_credential.
  - apply same_session_but_logged.
  - intros w v. apply same_session_but_state_set. right. now left.
Qed.

(** A loop whose every pass stands in [R] ends, if it ends, in [R]. *)
Lemma while_true_preserves {S} (R : World -> World -> Prop)
    (body : S -> M (loop_step S)) :
  (forall w, R w w) -> (forall a b c, R a b -> R b c -> R a c) ->
  (forall s, preserves R (body s)) ->
  forall fuel s w r w', while_true fuel body s w = Some (r, w') -> R w w'.
Proof.
  intros Hrefl Htrans Hbody fuel.
  induction fuel as [|fuel IH]; intros s w r w' Hrun; [discriminate|].
  cbn in Hrun. specialize (Hbody s w).
  destruct (body s w) as [[[res|s1]|e] w1]; cbn in Hbody.
  - injection Hrun as _ <-. exact Hbody.
  - exact (Htrans _ _ _ Hbody (IH _ _ _ _ Hrun)).
  - injection Hrun as _ <-. exact Hbody.
Qed.
Lemma list_jira_issues_body_writes_caches_only inst jql s :
  preserves (same_session_but [TOKEN_CACHE; JIRA_INSTANCE_CACHE])
    (list_jira_issues_body inst jql s).
Proof.
  pose proof (same_session_but_refl [TOKEN_CACHE; JIRA_INSTANCE_CACHE]) as Hrefl.
  pose proof (same_session_but_trans [TOKEN_CACHE; JIRA_INSTANCE_CACHE]) as Htrans.
  destruct s as [start_at all]. unfold list_jira_issues_body.
  apply preserves_bind; [exact Htrans | apply jira_api_call_writes_caches_only|].
  intros data. destruct (negb (is_success data)); [now apply preserves_ret|].
  repeat (apply preserves_bind;
          [exact Htrans | now apply preserves_lift | intros ?]).
  match goal with |- context [if ?b then _ else _] => destruct b end;
    now apply preserves_ret.
Qed.

Lemma list_jsm_service_projects_body_writes_caches_only inst s :
  preserves (same_session_but [TOKEN_CACHE; JIRA_INSTANCE_CACHE])
    (list_jsm_service_projects_body inst s).
Proof.
  pose proof (same_session_but_refl [TOKEN_CACHE; JIRA_INSTANCE_CACHE]) as Hrefl.
  pose proof (same_session_but_trans [TOKEN_CACHE; JIRA_INSTANCE_CACHE]) as Htrans.
  destruct s as [start all]. unfold list_jsm_service_projects_body.
  apply preserves_bind; [exact Htrans | apply jira_api_call_writes_caches_only|].
  intros data. destruct (negb (is_success data)); [now apply preserves_ret|].
  repeat (apply preserves_bind;
          [exact Htrans | now apply preserves_lift | intros ?]).
  match goal with |- context [if ?b then _ else _] => destruct b end;
    [now apply preserves_ret|].
  apply preserves_bind; [exact Htrans | now apply preserves_lift|].
  intros n. now apply preserves_ret.
Qed.
End Written.

(** X14. Of what the session holds, [_api_call] writes the token cache key
    only, and [jira_api_call], [list_jira_issues] and
    [list_jsm_service_projects] write the token cache and tenant cache keys
    only; none of them drops the session or creates one. *)
Theorem session_keys_written `{Platform} (w : World) :
  (forall endpoint method path json_data params,
     same_session_but [TOKEN_CACHE]
       w (snd (_api_call endpoint method path json_data params w)))
  /\
  (forall inst method path json_data params,
     same_session_but [TOKEN_CACHE; JIRA_INSTANCE_CACHE]
       w (snd (jira_api_call inst method path json_data params w)))
  /\
  (forall fuel inst jql r w',
     list_jira_issues fuel inst jql w = Some (r, w') ->
     same_session_but [TOKEN_CACHE; JIRA_INSTANCE_CACHE] w w')
  /\
  (forall fuel inst r w',
     list_jsm_service_projects fuel inst w = Some (r, w') ->
     same_session_but [TOKEN_CACHE; JIRA_INSTANCE_CACHE] w w').
Proof.
  split; [|split; [|split]].
  - intros. apply _api_call_writes_token_only.
  - intros. apply jira_api_call_writes_caches_only.
  - intros fuel inst jql r w'. unfold list_jira_issues.
    apply while_true_preserves;
      [apply same_session_but_refl | apply same_session_but_trans|].
    apply list_jira_issues_body_writes_caches_only.
  - intros fuel inst r w'. unfold list_jsm_service_projects.
    apply while_true_preserves;
      [apply same_session_but_refl | apply same_session_but_trans|].
    apply list_jsm_service_projects_body_writes_caches_only.
Qed.

Lemma session_keys_written_witness :
  session_key "other"
    (snd (_api_call (H := oauth_granted) "https://a.example" "GET" "/rest/api/3/serverInfo"
            None None (session {["other" := JNum 1]})))
  = Some (JNum 1)
  /\ session_key TOKEN_CACHE
       (snd (_api_call (H := oauth_granted) "https://a.example" "GET"
               "/rest/api/3/serverInfo" None None (session {["other" := JNum 1]})))
     = Some (JStr "stored").
Proof.
  split; [|vm_compute; reflexivity].
  destruct (proj1 (session_keys_written (H := oauth_granted)
                     (session {["other" := JNum 1]}))
              "https://a.example" "GET" "/rest/api/3/serverInfo" None None) as [_ Hkeys].
  rewrite (Hkeys "other"); [vm_compute; reflexivity|].
  intros [Heq|[]]. discriminate.
Defined.

(** ** More of tenant resolution *)

Section Tenants.
Context `{Platform}.

Lemma auth_list_jira_instances_fixed fixed w :
  os_getenv "JIRA_INSTANCE" = Some fixed -> fixed <> EmptyString ->
  auth_list_jira_instances w
  = (Ret (ResultsSuccess
            (JObj [(fixed, JObj [("id", JNull); ("name", JStr EmptyString)])])), w).
Proof.
  intros Henv Hne. unfold auth_list_jira_instances.
  now rewrite Henv, (str_truthy_Some _ Hne).
Qed.

Lemma auth_list_jira_instances_populated tc requests cache :
  str_truthy (os_getenv "JIRA_INSTANCE") = false ->
  state tc !! JIRA_INSTANCE_CACHE = Some cache ->
  truthy cache = true ->
  auth_list_jira_instances {| tool_context := Some tc; sent := requests |}
  = (Ret (ResultsSuccess cache), {| tool_context := Some tc; sent := requests |}).
Proof.
  intros Henv Hcache Htruthy. unfold auth_list_jira_instances. rewrite Henv.
  assert (Hctx : has_context {| tool_context := Some tc; sent := requests |} = true).
  { cbn. apply state_bool_nonempty. intros Hempty.
    rewrite Hempty, lookup_empty in Hcache. discriminate. }
  rewrite Hctx. unfold bind, state_get, state_getitem. cbn.
  rewrite Hcache. cbn. rewrite Htruthy. cbn. now rewrite Hcache.
Qed.

Lemma auth_list_jira_instances_no_session w :
  str_truthy (os_getenv "JIRA_INSTANCE") = false ->
  has_context w = false ->
  auth_list_jira_instances w
  = (Ret (ResultsError "no tool_context when running in OAuth mode"), w).
Proof.
  intros Henv Hctx. unfold auth_list_jira_instances. now rewrite Henv, Hctx.
Qed.

(** With the tenant map [known] at hand, [jira_api_call] goes on to
    [_api_call] at the base the entry of the instance gives. *)
Lemma jira_api_call_known inst method path json_data params w w1 known fields :
  auth_list_jira_instances w = (Ret (ResultsSuccess (JObj known)), w1) ->
  assoc_get inst known = Some (JObj fields) ->
  jira_api_call inst method path json_data params w
  = _api_call
      (if truthy (default JNull (assoc_get "id" fields))
       then "https://api.atlassian.com/ex/jira/"
            +:+ py_str (default JNull (assoc_get "id" fields))
       else inst)
      method path json_data params w1.
Proof.
  intros Hlist Hentry. unfold jira_api_call. unfold bind at 1. rewrite Hlist.
  cbn [is_success to_dict assoc_get negb String.eqb Ascii.eqb Bool.eqb].
  cbn. unfold lift, bind. cbn. rewrite Hentry. cbn.
  now destruct (assoc_get "id" fields).
Qed.

(** The discovery call of [auth_list_jira_instances], from a session whose
    tenant cache is not populated. *)
Lemma auth_list_jira_instances_discovers w :
  str_truthy (os_getenv "JIRA_INSTANCE") = false ->
  has_context w = true ->
  truthy (default JNull (session_key JIRA_INSTANCE_CACHE w)) = false ->
  auth_list_jira_instances w
  = (r <- _api_call "https://api.atlassian.com" "GET"
            "/oauth/token/accessible-resources" None None ;;
     if negb (is_success r) then ret r
     else
       data <- lift (results_getitem r "data") ;;
       items <- lift (py_iter data) ;;
       cache <- lift (instance_cache items []) ;;
       state_set JIRA_INSTANCE_CACHE (JObj cache) ;;;
       v <- state_getitem JIRA_INSTANCE_CACHE ;;
       ret (ResultsSuccess v)) w.
Proof.
  intros Henv Hctx Hcache. unfold auth_list_jira_instances. rewrite Henv, Hctx. cbn [negb].
  unfold has_context in Hctx. unfold session_key in Hcache.
  unfold bind at 1. unfold state_get at 1.
  destruct (tool_context w) as [tc|] eqn:Htc; [|discriminate].
  rewrite Hcache. cbn [negb]. unfold bind.
  destruct (_api_call _ _ _ _ _ w) as [[r|e] w1]; [|reflexivity].
  destruct (negb (is_success r)); [reflexivity|].
  unfold lift. destruct (results_getitem r "data") as [data|e]; [|reflexivity].
  destruct (py_iter data) as [items|e]; [|reflexivity].
  destruct (instance_cache items []) as [cache|e]; [|reflexivity].
  now destruct (state_set JIRA_INSTANCE_CACHE (JObj cache) w1) as [[[]|e] w2].
Qed.

(** Every tenant of a well-formed discovery response ends up as a key. *)
Lemma instance_cache_tenants items :
  tenants items ->
  forall acc, exists cache,
    instance_cache items acc = Ret cache
    /\ (forall u, assoc_get u acc <> None -> assoc_get u cache <> None)
    /\ (forall k u, In k items -> py_getitem k "url" = Ret (JStr u) ->
                    assoc_get u cache <> None).
Proof.
  induction items as [|k items IH]; intros Hwf acc.
  - exists acc. split; [reflexivity|]. split; [auto|]. intros k u [].
  - destruct Hwf as [(u & id & name & Hurl & Hid & Hname) Hrest].
    destruct (IH Hrest (assoc_set u (JObj [("id", id); ("name", name)]) acc))
      as (cache & Hrun & Hacc & Hitems).
    exists cache. split; [|split].
    + cbn [instance_cache]. now rewrite Hurl, Hid, Hname.
    + intros u' Hu'. apply Hacc. destruct (String.eqb u u') eqn:E.
      * apply String.eqb_eq in E. subst u'. now rewrite assoc_get_set_eq.
      * apply String.eqb_neq in E. now rewrite assoc_get_set_ne.
    + intros k' u' [<-|Hin] Hurl'.
      * rewrite Hurl in Hurl'. injection Hurl' as <-.
        apply Hacc. now rewrite assoc_get_set_eq.
      * now apply (Hitems k').
Qed.
End Tenants.

(** X15. With a fixed tenant configured, a call for that tenant goes to the
    tenant's own URL, and a call for any other instance is refused with the
    unknown-instance error before anything is sent. *)
Theorem jira_api_call_fixed_tenant `{Platform} (fixed method path : string)
    (json_data params : option json) (w : World) :
  os_getenv "JIRA_INSTANCE" = Some fixed -> fixed <> EmptyString ->
  jira_api_call fixed method path json_data params w
  = _api_call fixed method path json_data params w
  /\ forall inst, inst <> fixed ->
       jira_api_call inst method path json_data params w
       = (Ret (ResultsError unknown_instance_message), w).
Proof.
  intros Henv Hne. pose proof (auth_list_jira_instances_fixed fixed w Henv Hne) as Hlist.
  split.
  - rewrite (jira_api_call_known fixed method path json_data params w w
               [(fixed, JObj [("id", JNull); ("name", JStr EmptyString)])]
               [("id", JNull); ("name", JStr EmptyString)] Hlist); [reflexivity|].
    cbn. now rewrite String.eqb_refl.
  - intros inst Hinst. apply (jira_api_call_unknown _ _ _ _ _ _ _ _ Hlist).
    cbn. apply String.eqb_neq in Hinst. now rewrite Hinst.
Qed.

Lemma jira_api_call_fixed_tenant_witness :
  (exists w,
     jira_api_call (H := pat_foo) "https://a.example" "GET" "/rest/api/3/serverInfo"
       None None no_context
     = (Ret (ResultsSuccess (JObj [("foo", JNum 1)])), w)
     /\ map req_url (sent w) = ["https://a.example/rest/api/3/serverInfo"])
  /\ jira_api_call (H := pat_foo) "https://b.example" "GET" "/rest/api/3/serverInfo"
       None None no_context
     = (Ret (ResultsError unknown_instance_message), no_context).
Proof.
  destruct (jira_api_call_fixed_tenant (H := pat_foo) "https://a.example" "GET"
              "/rest/api/3/serverInfo" None None no_context eq_refl)
    as [Hsame Hother]; [discriminate|].
  split.
  - eexists. rewrite Hsame. split; vm_compute; reflexivity.
  - apply Hother. discriminate.
Defined.

(** X16. With no fixed tenant and a populated tenant cache, a call for a
    cached tenant goes through the Atlassian proxy at
    [https://api.atlassian.com/ex/jira/<id>] when the tenant has an id, and
    to the tenant's own URL when its id is null or empty. *)
Theorem jira_api_call_cached_tenant `{Platform} (inst method path : string)
    (json_data params : option json) (tc : ToolContext) (requests : list Request)
    (known fields : list (string * json)) :
  let w := {| tool_context := Some tc; sent := requests |} in
  str_truthy (os_getenv "JIRA_INSTANCE") = false ->
  state tc !! JIRA_INSTANCE_CACHE = Some (JObj known) ->
  assoc_get inst known = Some (JObj fields) ->
  (forall id, assoc_get "id" fields = Some (JStr id) -> id <> EmptyString ->
     jira_api_call inst method path json_data params w
     = _api_call ("https://api.atlassian.com/ex/jira/" +:+ id)
         method path json_data params w)
  /\
  (truthy (default JNull (assoc_get "id" fields)) = false ->
   jira_api_call inst method path json_data params w
   = _api_call inst method path json_data params w).
Proof.
  intros w Henv Hcache Hentry.
  assert (Hlist : auth_list_jira_instances w = (Ret (ResultsSuccess (JObj known)), w)).
  { apply auth_list_jira_instances_populated; [exact Henv | exact Hcache|].
    destruct known; [discriminate | reflexivity]. }
  pose proof (jira_api_call_known inst method path json_data params w w known fields
                Hlist Hentry) as Hcall.
  split.
  - intros id Hid Hne. rewrite Hcall, Hid. cbn.
    apply String.eqb_neq in Hne. now rewrite Hne.
  - intros Hnull. now rewrite Hcall, Hnull.
Qed.

Lemma jira_api_call_cached_tenant_witness :
  exists w,
    jira_api_call (H := oauth_discovering) "https://a.example" "GET"
      "/rest/api/3/serverInfo" None None
      (session {[JIRA_INSTANCE_CACHE := cache_a; TOKEN_CACHE := JStr "stored"]})
    = (Ret (ResultsSuccess (JObj [("foo", JNum 1)])), w)
    /\ map req_url (sent w)
       = ["https://api.atlassian.com/ex/jira/1234/rest/api/3/serverInfo"].
Proof.
  eexists.
  assert (Hcache : state {| state := {[JIRA_INSTANCE_CACHE := cache_a;
                                       TOKEN_CACHE := JStr "stored"]};
                            requested := [] |} !! JIRA_INSTANCE_CACHE
                   = Some (JObj [("https://a.example",
                                  JObj [("id", JStr "1234"); ("name", JStr "A")])]))
    by (vm_compute; reflexivity).
  unfold session.
  rewrite (proj1 (jira_api_call_cached_tenant (H := oauth_discovering) "https://a.example"
                    "GET" "/rest/api/3/serverInfo" None None _ []
                    _ [("id", JStr "1234"); ("name", JStr "A")] eq_refl Hcache eq_refl)
            "1234" eq_refl).
  - split; vm_compute; reflexivity.
  - discriminate.
Defined.

(** X17. With no fixed tenant and no usable session, tenant listing and
    every [jira_api_call] return the error [no tool_context when running in
    OAuth mode] and nothing is sent, a configured PAT notwithstanding. *)
Theorem jira_api_call_without_session `{Platform} (w : World) :
  str_truthy (os_getenv "JIRA_INSTANCE") = false ->
  has_context w = false ->
  auth_list_jira_instances w
  = (Ret (ResultsError "no tool_context when running in OAuth mode"), w)
  /\ forall inst method path json_data params,
       jira_api_call inst method path json_data params w
       = (Ret (ResultsError "no tool_context when running in OAuth mode"), w).
Proof.
  intros Henv Hctx.
  pose proof (auth_list_jira_instances_no_session w Henv Hctx) as Hlist.
  split; [exact Hlist|]. intros. unfold jira_api_call, bind. now rewrite Hlist.
Qed.

Lemma jira_api_call_without_session_witness :
  jira_api_call (H := pat_only) "https://a.example" "GET" "/rest/api/3/serverInfo"
    None None no_context
  = (Ret (ResultsError "no tool_context when running in OAuth mode"), no_context).
Proof.
  apply (proj2 (jira_api_call_without_session (H := pat_only) no_context eq_refl eq_refl)).
Defined.

Section Discovery.
Context `{Platform}.

(** [_api_call] keeps the session usable. *)
Lemma _api_call_keeps_session endpoint method path json_data params w :
  tool_context w <> None ->
  tool_context (snd (_api_call endpoint method path json_data params w)) <> None.
Proof.
  intros Hctx Hnone.
  destruct (_api_call_writes_token_only endpoint method path json_data params w) as [Hsame _].
  tauto.
Qed.

Lemma has_context_session w : has_context w = true -> tool_context w <> None.
Proof. unfold has_context. now destruct (tool_context w). Qed.

(** Writing a key and reading it back. *)
Lemma state_set_getitem key v w :
  tool_context w <> None ->
  (state_set key v ;;; x <- state_getitem key ;; ret (ResultsSuccess x)) w
  = (Ret (ResultsSuccess v), snd (state_set key v w))
  /\ session_key key (snd (state_set key v w)) = Some v.
Proof.
  intros Hctx. unfold bind, state_set, state_getitem, session_key.
  destruct (tool_context w) as [tc|]; [|contradiction]. cbn.
  now rewrite lookup_insert_eq.
Qed.

(** What [auth_list_jira_instances] does with a discovery that succeeded. *)
Lemma auth_list_jira_instances_discovered w w1 data items cache :
  str_truthy (os_getenv "JIRA_INSTANCE") = false ->
  has_context w = true ->
  truthy (default JNull (session_key JIRA_INSTANCE_CACHE w)) = false ->
  discovery w = (Ret (ResultsSuccess data), w1) ->
  py_iter data = Ret items ->
  instance_cache items [] = Ret cache ->
  auth_list_jira_instances w
  = (Ret (ResultsSuccess (JObj cache)), snd (state_set JIRA_INSTANCE_CACHE (JObj cache) w1))
  /\ session_key JIRA_INSTANCE_CACHE (snd (state_set JIRA_INSTANCE_CACHE (JObj cache) w1))
     = Some (JObj cache).
Proof.
  intros Henv Hctx Hcache Hcall Hiter Hrun.
  assert (Hsession : tool_context w1 <> None).
  { pose proof (_api_call_keeps_session "https://api.atlassian.com" "GET"
                  "/oauth/token/accessible-resources" None None w
                  (has_context_session w Hctx)) as Hkeep.
    unfold discovery in Hcall. now rewrite Hcall in Hkeep. }
  destruct (state_set_getitem JIRA_INSTANCE_CACHE (JObj cache) w1 Hsession) as [Hset Hget].
  split; [|exact Hget].
  rewrite (auth_list_jira_instances_discovers w Henv Hctx Hcache).
  unfold discovery in Hcall. unfold bind at 1. rewrite Hcall. cbv beta iota.
  change (is_success (ResultsSuccess data)) with true. cbv beta iota delta [negb].
  unfold bind at 1. unfold lift at 1.
  change (results_getitem (ResultsSuccess data) "data") with (Ret data). cbv beta iota.
  unfold bind at 1. unfold lift at 1. rewrite Hiter. cbv beta iota.
  unfold bind at 1. unfold lift at 1. rewrite Hrun. cbv beta iota.
  exact Hset.
Qed.
End Discovery.

(** X18. With no fixed tenant and a tenant cache that is not populated, a
    discovery that succeeds with a list of tenants, each with a string
    [url], an [id] and a [name], is stored under the tenant cache key and
    returned; every tenant listed is a key of the map returned. *)
Theorem auth_list_jira_instances_discovery `{Platform} (w w1 : World) (items : list json) :
  str_truthy (os_getenv "JIRA_INSTANCE") = false ->
  has_context w = true ->
  truthy (default JNull (session_key JIRA_INSTANCE_CACHE w)) = false ->
  discovery w = (Ret (ResultsSuccess (JArr items)), w1) ->
  tenants items ->
  exists cache,
    let w2 := snd (state_set JIRA_INSTANCE_CACHE (JObj cache) w1) in
    auth_list_jira_instances w = (Ret (ResultsSuccess (JObj cache)), w2)
    /\ session_key JIRA_INSTANCE_CACHE w2 = Some (JObj cache)
    /\ forall k u, In k items -> py_getitem k "url" = Ret (JStr u) ->
                   py_in u (JObj cache) = Ret true.
Proof.
  intros Henv Hctx Hcache Hcall Hwf.
  destruct (instance_cache_tenants items Hwf []) as (cache & Hrun & _ & Hkeys).
  exists cache. cbn zeta.
  destruct (auth_list_jira_instances_discovered w w1 (JArr items) items cache
              Henv Hctx Hcache Hcall eq_refl Hrun) as [Hlist Hget].
  split; [exact Hlist|]. split; [exact Hget|].
  intros k u Hin Hurl. cbn. specialize (Hkeys k u Hin Hurl).
  now destruct (assoc_get u cache).
Qed.

Lemma auth_list_jira_instances_discovery_witness :
  exists w,
    auth_list_jira_instances (H := oauth_discovering)
      (session {[TOKEN_CACHE := JStr "stored"]})
    = (Ret (ResultsSuccess cache_a), w)
    /\ session_key JIRA_INSTANCE_CACHE w = Some cache_a.
Proof.
  destruct (auth_list_jira_instances_discovery (H := oauth_discovering)
              (session {[TOKEN_CACHE := JStr "stored"]})
              (snd (discovery (H := oauth_discovering)
                      (session {[TOKEN_CACHE := JStr "stored"]})))
              [JObj [("id", JStr "1234"); ("url", JStr "https://a.example");
                     ("name", JStr "A"); ("scopes", JArr [])]])
    as (cache & Hlist & Hkey & _).
  - reflexivity.
  - reflexivity.
  - vm_compute. reflexivity.
  - vm_compute. reflexivity.
  - split; [|exact I]. eexists _, _, _. repeat split; reflexivity.
  - cbn zeta in Hlist, Hkey. eexists. split.
    + vm_compute. reflexivity.
    + vm_compute. reflexivity.
Defined.

(** X19. A discovery that does not succeed is handed on as it is, and
    nothing is stored under the tenant cache key. *)
Theorem auth_list_jira_instances_discovery_fails `{Platform} (w w1 : World)
    (r : ResultsDict) :
  str_truthy (os_getenv "JIRA_INSTANCE") = false ->
  has_context w = true ->
  truthy (default JNull (session_key JIRA_INSTANCE_CACHE w)) = false ->
  discovery w = (Ret r, w1) ->
  is_success r = false ->
  auth_list_jira_instances w = (Ret r, w1)
  /\ session_key JIRA_INSTANCE_CACHE w1 = session_key JIRA_INSTANCE_CACHE w.
Proof.
  intros Henv Hctx Hcache Hcall Hr. split.
  - rewrite (auth_list_jira_instances_discovers w Henv Hctx Hcache).
    unfold discovery in Hcall. unfold bind. now rewrite Hcall, Hr.
  - destruct (_api_call_writes_token_only "https://api.atlassian.com" "GET"
                "/oauth/token/accessible-resources" None None w) as [_ Hkeys].
    unfold discovery in Hcall. rewrite Hcall in Hkeys. apply Hkeys.
    intros [Heq|[]]. discriminate.
Qed.

Lemma auth_list_jira_instances_discovery_fails_witness :
  exists w,
    auth_list_jira_instances (H := oauth_fresh) (session ∅) = (Ret ResultsPending, w)
    /\ session_key JIRA_INSTANCE_CACHE w = None.
Proof.
  eexists.
  refine (auth_list_jira_instances_discovery_fails (H := oauth_fresh) (session ∅) _
            ResultsPending eq_refl eq_refl _ _ eq_refl).
  - vm_compute. reflexivity.
  - vm_compute. reflexivity.
Defined.

(** X20. A discovery that finds no tenant stores the empty map, which does
    not count as a populated cache: the call returns the empty map, and the
    next call asks the discovery endpoint again. *)
Theorem auth_list_jira_instances_empty_discovery `{Platform} (w w1 : World) :
  str_truthy (os_getenv "JIRA_INSTANCE") = false ->
  has_context w = true ->
  truthy (default JNull (session_key JIRA_INSTANCE_CACHE w)) = false ->
  discovery w = (Ret (ResultsSuccess (JArr [])), w1) ->
  let w2 := snd (state_set JIRA_INSTANCE_CACHE (JObj []) w1) in
  auth_list_jira_instances w = (Ret (ResultsSuccess (JObj [])), w2)
  /\ forall r w3,
       discovery w2 = (Ret r, w3) -> is_success r = false ->
       auth_list_jira_instances w2 = (Ret r, w3).
Proof.
  intros Henv Hctx Hcache Hcall w2.
  destruct (auth_list_jira_instances_discovered w w1 (JArr []) [] []
              Henv Hctx Hcache Hcall eq_refl eq_refl) as [Hlist Hget].
  fold w2 in Hlist, Hget. split; [exact Hlist|].
  assert (Hsession : tool_context w1 <> None).
  { pose proof (_api_call_keeps_session "https://api.atlassian.com" "GET"
                  "/oauth/token/accessible-resources" None None w
                  (has_context_session w Hctx)) as Hkeep.
    unfold discovery in Hcall. now rewrite Hcall in Hkeep. }
  intros r w3 Hagain Hr.
  rewrite (auth_list_jira_instances_discovers w2 Henv).
  - unfold discovery in Hagain. unfold bind. now rewrite Hagain, Hr.
  - subst w2. unfold has_context, state_set.
    destruct (tool_context w1) as [tc|]; [|contradiction]. cbn.
    apply state_bool_nonempty. intros Hempty.
    pose proof (lookup_insert_eq (state tc) JIRA_INSTANCE_CACHE (JObj [])) as Hlook.
    rewrite Hempty, lookup_empty in Hlook. discriminate.
  - now rewrite Hget.
Qed.

Lemma auth_list_jira_instances_empty_discovery_witness :
  exists w2 message w3,
    auth_list_jira_instances (H := oauth_no_tenants)
      (session {[TOKEN_CACHE := JStr "stored"]})
    = (Ret (ResultsSuccess (JObj [])), w2)
    /\ auth_list_jira_instances (H := oauth_no_tenants) w2
       = (Ret (ResultsError message), w3)
    /\ length (sent w3) = 2%nat.
Proof.
  destruct (auth_list_jira_instances_empty_discovery (H := oauth_no_tenants)
              (session {[TOKEN_CACHE := JStr "stored"]})
              (snd (discovery (H := oauth_no_tenants)
                      (session {[TOKEN_CACHE := JStr "stored"]}))))
    as [Hfirst Hsecond].
  - reflexivity.
  - reflexivity.
  - vm_compute. reflexivity.
  - vm_compute. reflexivity.
  - cbn zeta in Hfirst, Hsecond. eexists _, _, _. split; [exact Hfirst|]. split.
    + apply Hsecond; [vm_compute; reflexivity | reflexivity].
    + vm_compute. reflexivity.
Defined.

(** ** The tool functions *)

Section Tools.
Context `{Platform}.


(** [len] agrees with what iterating yields. *)
Lemma py_len_iter v items :
  py_iter v = Ret items -> py_len v = Ret (Z.of_nat (length items)).
Proof.
  destruct v; cbn; intros Hiter; try discriminate; injection Hiter as <-;
    try reflexivity.
  - f_equal. f_equal. induction s as [|c s IH]; cbn; congruence.
  - now rewrite length_map.
Qed.

(** A pass of [list_jira_issues] that goes round again has moved the offset
    by as many items as it has gathered. *)
Lemma list_jira_issues_body_count inst jql start_at all w start_at' all' w' :
  list_jira_issues_body inst jql (start_at, all) w = (Ret (Continue (start_at', all')), w') ->
  start_at' - start_at = Z.of_nat (length all') - Z.of_nat (length all).
Proof.
  unfold list_jira_issues_body, bind, lift. intros Hstep.
  destruct (search_page inst jql start_at w) as [[data|e] w1]; [|discriminate].
  destruct (negb (is_success data)); [discriminate|].
  destruct (results_getitem data "data") as [payload|e]; [|discriminate].
  destruct (py_get payload "issues" (JArr [])) as [issues|e]; [|discriminate].
  destruct (py_iter issues) as [items|e] eqn:Hiter; [|discriminate].
  rewrite (py_len_iter _ _ Hiter) in Hstep.
  destruct (py_get payload "total" (JNum 0)) as [total|e]; [|discriminate].
  destruct (py_ge (start_at + Z.of_nat (length items)) total) as [[|]|e];
    try discriminate.
  injection Hstep as <- <- _. rewrite length_app. lia.
Qed.

Lemma list_jira_issues_passes_count inst jql n :
  forall start_at all w start_at' all' w',
    passes (list_jira_issues_body inst jql) n (start_at, all) w (start_at', all') w' ->
    start_at' - start_at = Z.of_nat (length all') - Z.of_nat (length all).
Proof.
  induction n as [|n IH]; intros start_at all w start_at' all' w' Hpasses;
    inversion Hpasses; subst.
  - lia.
  - destruct s1 as [start_at1 all1].
    match goal with
    | Hstep : list_jira_issues_body _ _ _ _ = _, Hrest : passes _ _ _ _ _ _ |- _ =>
        pose proof (list_jira_issues_body_count _ _ _ _ _ _ _ _ Hstep);
        pose proof (IH _ _ _ _ _ _ Hrest)
    end.
    lia.
Qed.
End Tools.

(** X21. [update_jira_issue] with neither a summary nor a description (each
    absent or empty) returns the error [No fields to update were provided.]
    and does nothing else; with a summary only, it sends a PUT for the issue
    whose body has the field [summary] and no other. *)
Theorem update_jira_issue_fields `{Platform} (inst issue_id_or_key : string)
    (summary description : option string) (w : World) :
  str_truthy description = false ->
  (str_truthy summary = false ->
   update_jira_issue inst issue_id_or_key summary description w
   = (Ret (ResultsError "No fields to update were provided."), w))
  /\
  (forall text, summary = Some text -> text <> EmptyString ->
     update_jira_issue inst issue_id_or_key summary description w
     = jira_api_call inst "PUT" ("/rest/api/3/issue/" +:+ issue_id_or_key)
         (Some (JObj [("fields", JObj [("summary", JStr text)])])) None w).
Proof.
  intros Hdescription. unfold update_jira_issue. rewrite Hdescription. split.
  - intros Hsummary. now rewrite Hsummary.
  - intros text -> Htext. now rewrite (str_truthy_Some _ Htext).
Qed.

Lemma update_jira_issue_fields_witness :
  update_jira_issue (H := pat_foo) "https://a.example" "some-key" None None no_context
  = (Ret (ResultsError "No fields to update were provided."), no_context)
  /\ exists w,
       update_jira_issue (H := pat_foo) "https://a.example" "SD-1" (Some "New summary")
         None no_context
       = (Ret (ResultsSuccess (JObj [("foo", JNum 1)])), w)
       /\ map req_json (sent w)
          = [Some (JObj [("fields", JObj [("summary", JStr "New summary")])])].
Proof.
  split.
  - exact (proj1 (update_jira_issue_fields (H := pat_foo) "https://a.example" "some-key"
                    None None no_context eq_refl) eq_refl).
  - eexists.
    rewrite (proj2 (update_jira_issue_fields (H := pat_foo) "https://a.example" "SD-1"
                      (Some "New summary") None no_context eq_refl)
               "New summary" eq_refl); [|discriminate].
    split; vm_compute; reflexivity.
Defined.



(** ** More of the paginated list operations *)

(** X23. Whatever the pages hold, after any number of passes of
    [list_jira_issues] the offset asked for next is the number of items
    gathered so far. *)
Theorem list_jira_issues_offset_is_count `{Platform} (inst jql : string) (n : nat)
    (w0 w : World) (start_at : Z) (all : list json) :
  passes (list_jira_issues_body inst jql) n (0, []) w0 (start_at, all) w ->
  start_at = Z.of_nat (length all).
Proof.
  intros Hpasses.
  pose proof (list_jira_issues_passes_count inst jql n _ _ _ _ _ _ Hpasses) as Hcount.
  cbn in Hcount. lia.
Qed.

Lemma list_jira_issues_offset_is_count_witness :
  200 = Z.of_nat (length (issues_from 0 100 ++ issues_from 100 100)%list).
Proof.
  eapply (list_jira_issues_offset_is_count (H := pat_240) "https://a.example" EmptyString
            2 no_context).
  eapply passes_S; [vm_compute; reflexivity|].
  eapply passes_S; [vm_compute; reflexivity|].
  apply passes_O.
Defined.

(** X24. When the page that ends [list_jira_issues] is a success, the
    result holds the items gathered before followed by that page, and they
    are at least as many as the total that page reports. *)
Theorem list_jira_issues_reaches_total `{Platform} (inst jql : string) (n : nat)
    (w0 w w' : World) (start_at : Z) (all p : list json) (payload : json) (t : Z)
    (fuel : nat) :
  passes (list_jira_issues_body inst jql) n (0, []) w0 (start_at, all) w ->
  search_page inst jql start_at w = (Ret (ResultsSuccess payload), w') ->
  is_page payload p t ->
  t <= start_at + Z.of_nat (length p) ->
  list_jira_issues (n + Datatypes.S fuel) inst jql w0
  = Some (Ret (ResultsSuccess (JArr (all ++ p)%list)), w')
  /\ t <= Z.of_nat (length (all ++ p)%list).
Proof.
  intros Hpasses Hcall [Hissues Htotal] Hreach.
  pose proof (list_jira_issues_passes_count inst jql n _ _ _ _ _ _ Hpasses) as Hcount.
  cbn in Hcount. split.
  - unfold list_jira_issues. rewrite (while_true_passes _ _ _ _ _ _ _ Hpasses).
    apply while_true_break.
    rewrite (list_jira_issues_body_success _ _ _ all _ _ _ _ _ Hcall Hissues Htotal).
    apply Z.geb_le in Hreach. now rewrite Hreach.
  - rewrite length_app. lia.
Qed.

Lemma list_jira_issues_reaches_total_witness :
  exists data w,
    list_jira_issues (H := pat_three) 3 "https://a.example" EmptyString no_context
    = Some (Ret (ResultsSuccess (JArr data)), w)
    /\ 3 <= Z.of_nat (length data).
Proof.
  eexists _, _.
  eapply (list_jira_issues_reaches_total (H := pat_three) "https://a.example" EmptyString
            2 no_context _ _ 2 _ (issues_from 2 1) _ 3 0).
  - eapply passes_S; [vm_compute; reflexivity|].
    eapply passes_S; [vm_compute; reflexivity|].
    apply passes_O.
  - vm_compute. reflexivity.
  - split; vm_compute; reflexivity.
  - vm_compute. discriminate.
Defined.

(** X25. A first page that is a success without a [total] ends
    [list_jira_issues] at once with the issues of that page, none when the
    page has no [issues] either, as for the empty dictionary that stands
    for an empty response body. *)
Theorem list_jira_issues_without_total `{Platform} (inst jql : string) (w w' : World)
    (fields : list (string * json)) (p : list json) (fuel : nat) :
  search_page inst jql 0 w = (Ret (ResultsSuccess (JObj fields)), w') ->
  assoc_get "total" fields = None ->
  default (JArr []) (assoc_get "issues" fields) = JArr p ->
  list_jira_issues (Datatypes.S fuel) inst jql w
  = Some (Ret (ResultsSuccess (JArr p)), w').
Proof.
  intros Hcall Htotal Hissues. unfold list_jira_issues. apply while_true_break.
  rewrite (list_jira_issues_body_success _ _ _ [] _ _ (JObj fields) p 0 Hcall).
  - destruct (0 + Z.of_nat (length p) >=? 0) eqn:E; [reflexivity|].
    rewrite Z.geb_leb in E. apply Z.leb_gt in E. lia.
  - cbn. unfold default in Hissues. now rewrite <- Hissues.
  - cbn. now rewrite Htotal.
Qed.

Lemma list_jira_issues_without_total_witness :
  exists w,
    list_jira_issues (H := pat_empty) 1 "https://a.example" EmptyString no_context
    = Some (Ret (ResultsSuccess (JArr [])), w).
Proof.
  eexists.
  eapply (list_jira_issues_without_total (H := pat_empty) "https://a.example" EmptyString
            no_context _ [] [] 0).
  - vm_compute. reflexivity.
  - reflexivity.
  - reflexivity.
Defined.

(** X26. [list_jsm_service_projects] returns the [values] of the first page
    when that page is a success, none when the page has no [values]; it
    asks for no other page. *)
Theorem list_jsm_service_projects_first_page `{Platform} (inst : string) (w w' : World)
    (fields : list (string * json)) (p : list json) (fuel : nat) :
  servicedesk_page inst 0 w = (Ret (ResultsSuccess (JObj fields)), w') ->
  default (JArr []) (assoc_get "values" fields) = JArr p ->
  list_jsm_service_projects (Datatypes.S fuel) inst w
  = Some (Ret (ResultsSuccess (JArr p)), w').
Proof.
  intros Hcall Hvalues. unfold list_jsm_service_projects. apply while_true_break.
  unfold list_jsm_service_projects_body, bind. rewrite Hcall. cbn.
  unfold lift. destruct (assoc_get "values" fields) as [v|]; cbn in Hvalues;
    [subst v | injection Hvalues as <-]; reflexivity.
Qed.

Lemma list_jsm_service_projects_first_page_witness :
  exists w,
    list_jsm_service_projects (H := pat_two_pages) 1 "https://a.example" no_context
    = Some (Ret (ResultsSuccess (JArr [desk "1"; desk "2"])), w).
Proof.
  eexists.
  eapply (list_jsm_service_projects_first_page (H := pat_two_pages) "https://a.example"
            no_context _
            [("values", JArr [desk "1"; desk "2"]); ("isLastPage", JBool false)]
            [desk "1"; desk "2"] 0).
  - vm_compute. reflexivity.
  - reflexivity.
Defined.

(** X27. With a fixed tenant configured and a PAT selected, as in the
    integration tests, a call for the tenant attempts exactly one request,
    at the tenant's URL plus the path and with the Basic credentials, and
    its answer alone decides the outcome; [get_jira_issue] and
    [delete_jira_issue] address the same URL with GET and DELETE. *)
Theorem jira_api_call_pat_fixed_tenant `{Platform} (fixed : string) (auth : BasicAuth)
    (w : World) :
  os_getenv "JIRA_INSTANCE" = Some fixed -> fixed <> EmptyString ->
  select_strategy w = (Ret (StaticPAT auth), w) ->
  (forall method path json_data params,
     let req := api_request fixed method path json_data params
                  (Some auth) default_headers in
     jira_api_call fixed method path json_data params w
     = (response_outcome fixed req (http_request (sent w) req), logged w req))
  /\
  (forall key,
     let req := api_request fixed "GET" ("/rest/api/3/issue/" +:+ key) None None
                  (Some auth) default_headers in
     get_jira_issue fixed key w
     = (response_outcome fixed req (http_request (sent w) req), logged w req))
  /\
  (forall key,
     let req := api_request fixed "DELETE" ("/rest/api/3/issue/" +:+ key) None None
                  (Some auth) default_headers in
     delete_jira_issue fixed key w
     = (response_outcome fixed req (http_request (sent w) req), logged w req)).
Proof.
  intros Henv Hne Hsel.
  assert (Hcall : forall method path json_data params,
             jira_api_call fixed method path json_data params w
             = (response_outcome fixed
                  (api_request fixed method path json_data params (Some auth) default_headers)
                  (http_request (sent w)
                     (api_request fixed method path json_data params (Some auth)
                        default_headers)),
                logged w (api_request fixed method path json_data params (Some auth)
                            default_headers))).
  { intros method path json_data params.
    rewrite (jira_api_call_known fixed method path json_data params w w
               [(fixed, JObj [("id", JNull); ("name", JStr EmptyString)])]
               [("id", JNull); ("name", JStr EmptyString)]
               (auth_list_jira_instances_fixed fixed w Henv Hne)).
    - cbn [assoc_get String.eqb default truthy]. cbn.
      apply _api_call_resolved. now rewrite (resolve_auth_selected _ _ Hsel).
    - cbn. now rewrite String.eqb_refl. }
  split; [exact Hcall|]. split; intros key; apply Hcall.
Qed.

Lemma jira_api_call_pat_fixed_tenant_witness :
  exists w,
    get_jira_issue (H := pat_404) "https://a.example" "NONEXISTENT-12345" no_context
    = (Ret (ResultsError
              ("An error occurred while calling Jira API endpoint https://a.example"
               +:+ ": Client error for url "
               +:+ "'https://a.example/rest/api/3/issue/NONEXISTENT-12345'")),
       w).
Proof.
  eexists.
  assert (Hsel : select_strategy (H := pat_404) no_context
                 = (Ret (StaticPAT {| username := "user"; password := "pat" |}), no_context))
    by (vm_compute; reflexivity).
  assert (Hne : "https://a.example" <> EmptyString) by discriminate.
  rewrite (proj1 (proj2 (jira_api_call_pat_fixed_tenant (H := pat_404) "https://a.example"
                           {| username := "user"; password := "pat" |} no_context
                           eq_refl Hne Hsel))
             "NONEXISTENT-12345").
  vm_compute. reflexivity.
Defined.
